(** * GECIA: offline SAC training script and curve-fitting script

    A shallow embedding of the parts of [2-Model/2.2-training.py] and
    [3-Evaluate/FittingAnalysis.py] that carry logic of their own: the
    dataset loader with its terminal-flag fallback, the replay environment
    [OfflineEnv], the training driver with best-checkpoint retention and
    early stopping, and the polynomial/spline fitting block.

    Calls into pandas, numpy, RLlib, torch and scipy are not re-implemented:
    each is represented by its possible outcomes (a value or a raised
    exception), supplied as an argument. *)

From Stdlib Require Import String List ZArith QArith Bool Lia.
Import ListNotations.
Local Open Scope Z_scope.

(* ===================================================================== *)
(** ** Python run-time model: exceptions, effects, dictionaries, indexing *)
(* ===================================================================== *)

Module Py.

(** Python's exception hierarchy, as far as [except Exception] and
    [except KeyboardInterrupt] can tell: [KeyboardInterrupt] and
    [SystemExit] derive from [BaseException] only, every other class
    (named by [cls]) derives from [Exception]. *)
Inductive exn : Type :=
| KeyboardInterrupt
| SystemExit
| Error (cls : string).

Definition is_Exception (e : exn) : bool :=
  match e with Error _ => true | _ => false end.

Definition is_KeyboardInterrupt (e : exn) : bool :=
  match e with KeyboardInterrupt => true | _ => false end.

Definition FileNotFoundError : exn := Error "FileNotFoundError".
Definition ParserError : exn := Error "ParserError".
Definition IndexError : exn := Error "IndexError".
Definition ValueError : exn := Error "ValueError".
Definition ZeroDivisionError : exn := Error "ZeroDivisionError".
Definition KeyError : exn := Error "KeyError".

Inductive result (A : Type) : Type :=
| Ok (a : A)
| Raise (e : exn).
Arguments Ok {A} a.
Arguments Raise {A} e.

(** A Python [float] as the driver meets it in a metric or keeps it in
    [best_reward]: not-a-number, an infinity, or a finite value, which is a
    rational (an [int] such as the default [0] is a finite value too). *)
Inductive pyfloat : Type :=
| NaN
| NegInf
| PosInf
| Fin (q : Q).

Definition Qltb (x y : Q) : bool := negb (Qle_bool y x).

Definition is_nan (x : pyfloat) : bool :=
  match x with NaN => true | _ => false end.

(** [x > y]: false as soon as one side is not a number. *)
Definition fgt (x y : pyfloat) : bool :=
  match x with
  | NaN => false
  | NegInf => false
  | PosInf => match y with NegInf | Fin _ => true | NaN | PosInf => false end
  | Fin a =>
      match y with
      | NegInf => true
      | Fin b => Qltb b a
      | NaN | PosInf => false
      end
  end.

(** [x <= y]: false as soon as one side is not a number. *)
Definition fle (x y : pyfloat) : bool :=
  match x with
  | NaN => false
  | NegInf => match y with NaN => false | _ => true end
  | PosInf => match y with PosInf => true | _ => false end
  | Fin a =>
      match y with
      | PosInf => true
      | Fin b => Qle_bool a b
      | NaN | NegInf => false
      end
  end.

(** [x == y]: false as soon as one side is not a number. *)
Definition feq (x y : pyfloat) : bool :=
  match x, y with
  | NegInf, NegInf | PosInf, PosInf => true
  | Fin a, Fin b => Qeq_bool a b
  | _, _ => false
  end.

(** Which [algo.save(checkpoint_dir)] call wrote a checkpoint: the one in
    the loop body at iteration [i] or the one in the [finally] block. *)
Inductive save_site : Type :=
| BestAt (i : Z)
| Final.

(** The lines the scripts print. *)
Inductive message : Type :=
| MsgLoading
| MsgLoaded (samples : nat)
| MsgInitializing
| MsgIteration (i : Z)
    (avg_reward avg_episode_length total_timesteps : pyfloat)
| MsgSavedBest (avg_reward : pyfloat)
| MsgEarlyStopping
| MsgInterrupted
| MsgFinalSaved
| MsgTorchSaved
| MsgExportFailed (e : exn)
| MsgCompleted
| MsgFileNotFound
| MsgPolyFailed (e : exn).

(** Observable effects, in program order. *)
Inductive event : Type :=
| Print (m : message)
| AlgoBuild
| MakeDirs
| AlgoSave (site : save_site)
| TorchSave.

(** A script fragment: the effects it performed, and its value or the
    exception it left unhandled. *)
Definition prog (A : Type) : Type := (list event * result A)%type.

Definition ret {A} (a : A) : prog A := ([], Ok a).
Definition raise {A} (e : exn) : prog A := ([], Raise e).
Definition tell (ev : event) : prog unit := ([ev], Ok tt).
Definition print (m : message) : prog unit := tell (Print m).
Definition lift {A} (r : result A) : prog A := ([], r).

Definition bind {A B} (c : prog A) (k : A -> prog B) : prog B :=
  match c with
  | (t, Ok a) => let (t', r) := k a in (t ++ t', r)
  | (t, Raise e) => (t, Raise e)
  end.

Definition trace {A} (c : prog A) : list event := fst c.
Definition outcome {A} (c : prog A) : result A := snd c.

(** [try: body / except <classes matched by catches> as e: handler e] *)
Definition try_except {A} (body : prog A) (catches : exn -> bool)
    (handler : exn -> prog A) : prog A :=
  match body with
  | (t, Raise e) =>
      if catches e then let (t', r) := handler e in (t ++ t', r)
      else (t, Raise e)
  | (t, Ok a) => (t, Ok a)
  end.

(** [try: body / finally: final]: [final] always runs; an exception of
    [body] is re-raised after it unless [final] raises one itself. *)
Definition try_finally {A} (body : prog A) (final : prog unit) : prog A :=
  let (t, r) := body in
  let (t', r') := final in
  (t ++ t', match r' with Raise e => Raise e | Ok _ => r end).

(** A [dict] with string keys, in insertion order. *)
Definition dict (V : Type) : Type := list (string * V).

Fixpoint dict_get {V} (d : dict V) (k : string) (default : V) : V :=
  match d with
  | [] => default
  | (k', v) :: d' => if String.eqb k' k then v else dict_get d' k default
  end.

Fixpoint dict_set {V} (d : dict V) (k : string) (v : V) : dict V :=
  match d with
  | [] => [(k, v)]
  | (k', v') :: d' =>
      if String.eqb k' k then (k, v) :: d' else (k', v') :: dict_set d' k v
  end.

(** [l[i]] for an integer [i]: negative indices count from the end. *)
Definition getitem {A} (l : list A) (i : Z) : result A :=
  let n := Z.of_nat (length l) in
  let j := if i <? 0 then i + n else i in
  if (0 <=? j) && (j <? n) then
    match nth_error l (Z.to_nat j) with
    | Some x => Ok x
    | None => Raise IndexError
    end
  else Raise IndexError.

(** [a % b] on Python integers. *)
Definition mod_ (a b : Z) : result Z :=
  if b =? 0 then Raise ZeroDivisionError else Ok (a mod b).

(** Where a slice [start:] begins in a sequence of length [n]. *)
Definition slice_start (start n : Z) : Z :=
  if start <? 0 then Z.max 0 (start + n) else Z.min start n.

(** [range(n)] *)
Definition range (n : nat) : list Z := map Z.of_nat (seq 0 n).

End Py.

Export Py.

Declare Scope prog_scope.
Delimit Scope prog_scope with prog.
Notation "x <- c ;; k" := (bind c (fun x => k))
  (at level 61, c at next level, right associativity) : prog_scope.
Notation "c ;; k" := (bind c (fun _ => k))
  (at level 61, right associativity) : prog_scope.

(* ===================================================================== *)
(** ** [2-Model/2.2-training.py]: data loading and [OfflineEnv]          *)
(* ===================================================================== *)

Module Training.

Local Open Scope prog_scope.

(** Floating-point numbers are kept abstract: [F0] and [F1] are [0.0] and
    [1.0], [fadd] is Python's [+] on floats, [is_zero x] is [x == 0] and
    [np_sum] is [ndarray.sum()] on the flattened array. Nothing below
    depends on how they round. *)
Class Float : Type := {
  F : Type;
  F0 : F;
  F1 : F;
  fadd : F -> F -> F;
  is_zero : F -> bool;
  np_sum : list F -> F
}.

Section Numeric.

Context {fl : Float}.

(** A two-dimensional array (a [DataFrame] of parsed numbers, or the
    [ndarray] taken from one): [ncols] columns, one list per row. *)
Record ndarray : Type := { ncols : nat; rows : list (list F) }.

Definition rectangular (a : ndarray) : Prop :=
  Forall (fun r => List.length r = ncols a) (rows a).

(** [len(a)] *)
Definition len (a : ndarray) : nat := List.length (rows a).

(** [df.iloc[:, lo:hi].values.astype(np.float32)] for [0 <= lo <= hi]:
    positional column slices are clipped to the columns that exist. *)
Definition iloc_cols (lo hi : nat) (df : ndarray) : ndarray :=
  {| ncols := (Nat.min hi (ncols df) - Nat.min lo (ncols df))%nat;
     rows := map (fun r => firstn (hi - lo) (skipn lo r)) (rows df) |}.

(** What [pd.read_csv("model-base.csv")] finds. *)
Inductive source : Type :=
| Missing
| Malformed
| Table (df : ndarray).

Definition read_csv (src : source) : result ndarray :=
  match src with
  | Missing => Raise FileNotFoundError
  | Malformed => Raise ParserError
  | Table df => Ok df
  end.

(** [row[c] = v] for an in-range column [c] *)
Definition set_col (c : nat) (v : F) (row : list F) : list F :=
  match skipn c row with
  | [] => row
  | _ :: tl => firstn c row ++ v :: tl
  end.

(** [a[start:, col] = v]: the integer column index is bounds-checked
    against the array's shape, then column [col] of every row from the
    start of the slice on is overwritten. *)
Definition setitem_tail_col (start col : Z) (v : F) (a : ndarray)
    : result ndarray :=
  let w := Z.of_nat (ncols a) in
  let c := if col <? 0 then col + w else col in
  if (0 <=? c) && (c <? w) then
    let s := Z.to_nat (slice_start start (Z.of_nat (len a))) in
    Ok {| ncols := ncols a;
          rows := firstn s (rows a)
                  ++ map (set_col (Z.to_nat c) v) (skipn s (rows a)) |}
  else Raise IndexError.

(** The module-level arrays [states], [actions], [rewards], [terminals]. *)
Record dataset : Type := {
  states : ndarray;
  actions : ndarray;
  rewards : ndarray;
  terminals : ndarray
}.

(** Lines 19-30: load the CSV, slice the columns, apply the fallback
    [if terminals.sum() == 0: terminals[-1000:, 0] = 1]. *)
Definition load_dataset (src : source) : prog dataset :=
  print MsgLoading ;;
  data <- lift (read_csv src) ;;
  let states := iloc_cols 0 34 data in
  let actions := iloc_cols 34 35 data in
  let rewards := iloc_cols 35 36 data in
  let terminals := iloc_cols 36 37 data in
  terminals <-
    (if is_zero (np_sum (concat (rows terminals)))
     then lift (setitem_tail_col (-1000) 0 F1 terminals)
     else ret terminals) ;;
  print (MsgLoaded (len states)) ;;
  ret {| states := states; actions := actions;
         rewards := rewards; terminals := terminals |}.

(** The terminal flag of row [i]: [terminals[i][0]]. *)
Definition flag (t : ndarray) (i : nat) : option F :=
  match nth_error (rows t) i with
  | Some r => nth_error r 0
  | None => None
  end.

(** *** The replay environment *)

Record OfflineEnv : Type := {
  _dataset : dataset;
  _index : Z;
  _current_episode_reward : F;
  _current_episode_length : Z
}.

(** [OfflineEnv.__init__] reads the module-level arrays. *)
Definition init (ds : dataset) : OfflineEnv :=
  {| _dataset := ds; _index := 0;
     _current_episode_reward := F0; _current_episode_length := 0 |}.

(** [np.random.randint(low, high)]; [draw] is the generator's choice. *)
Definition randint (low high draw : Z) : result Z :=
  if high <=? low then Raise ValueError
  else Ok (low + draw mod (high - low)).

Definition reset (env : OfflineEnv) (draw : Z)
    : result ((list F * unit) * OfflineEnv) :=
  match randint 0 (Z.of_nat (len (states (_dataset env)))) draw with
  | Raise e => Raise e
  | Ok i =>
      let env' := {| _dataset := _dataset env; _index := i;
                     _current_episode_reward := F0;
                     _current_episode_length := 0 |} in
      match getitem (rows (states (_dataset env'))) (_index env') with
      | Raise e => Raise e
      | Ok obs => Ok ((obs, tt), env')
      end
  end.

(** What [step] returns: [obs, reward, terminated, truncated, info], the
    [info] dictionary having the single key ['episode_reward']. *)
Record step_result : Type := {
  obs : list F;
  reward : F;
  terminated : bool;
  truncated : bool;
  info_episode_reward : F
}.

(** [arr[i][0]] *)
Definition getitem2 (a : ndarray) (i : Z) : result F :=
  match getitem (rows a) i with
  | Raise e => Raise e
  | Ok r => getitem r 0
  end.

(** [OfflineEnv.step]; the proposed [action] is an opaque value. Every
    read that can raise comes before the first assignment to [self], so a
    raised exception leaves [env] as it was. [float(x)] of a float32 is
    exact and kept as [x]; [bool(x)] is [x != 0]. *)
Definition step {Action : Type} (env : OfflineEnv) (action : Action)
    : result (step_result * OfflineEnv) :=
  let ds := _dataset env in
  match getitem (rows (states ds)) (_index env) with
  | Raise e => Raise e
  | Ok obs =>
  match getitem2 (rewards ds) (_index env) with
  | Raise e => Raise e
  | Ok reward =>
  match getitem2 (terminals ds) (_index env) with
  | Raise e => Raise e
  | Ok t =>
      let terminated := negb (is_zero t) in
      let truncated := false in
      let episode_reward := fadd (_current_episode_reward env) reward in
      let episode_length := _current_episode_length env + 1 in
      match mod_ (_index env + 1) (Z.of_nat (len (states ds))) with
      | Raise e => Raise e
      | Ok index =>
          Ok ({| obs := obs; reward := reward; terminated := terminated;
                 truncated := truncated;
                 info_episode_reward := episode_reward |},
              {| _dataset := ds; _index := index;
                 _current_episode_reward := episode_reward;
                 _current_episode_length := episode_length |})
      end
  end end end.

(** Consecutive [step] calls, one per proposed action. *)
Fixpoint steps {Action : Type} (env : OfflineEnv) (acts : list Action)
    : result OfflineEnv :=
  match acts with
  | [] => Ok env
  | a :: acts' =>
      match step env a with
      | Raise e => Raise e
      | Ok (_, env') => steps env' acts'
      end
  end.

(** The arrays of a loaded table line up: one reward and one terminal
    flag per observation row. *)
Definition aligned (ds : dataset) : Prop :=
  len (rewards ds) = len (states ds) /\
  len (terminals ds) = len (states ds) /\
  Forall (fun r => r <> []) (rows (rewards ds)) /\
  Forall (fun r => r <> []) (rows (terminals ds)).

End Numeric.

(** *** The training driver (the [__main__] block) *)

(** [avg_reward > best_reward], on floats; [best_reward] starts as
    [-float('inf')]. *)
Definition exceeds (avg_reward best_reward : pyfloat) : bool :=
  fgt avg_reward best_reward.

(** The dictionary [algo.train()] returns. *)
Definition metrics : Type := dict pyfloat.

(** [algo.train()] is called once per iteration: [train i] is what the call
    of iteration [i] does, return metrics or raise. *)
Definition trainer : Type := Z -> result metrics.

(** [result.get('episode_reward_mean', 0)] *)
Definition episode_reward_mean (result : metrics) : pyfloat :=
  dict_get result "episode_reward_mean" (Fin 0).

Inductive loop_signal : Type := Continue | Break.

(** The body of [for i in range(100)] (lines 163-182). *)
Definition iteration (train : trainer) (i : Z) (best_reward : pyfloat)
    : prog (pyfloat * loop_signal) :=
  result <- lift (train i) ;;
  let avg_reward := episode_reward_mean result in
  let avg_episode_length := dict_get result "episode_len_mean" (Fin 0) in
  let total_timesteps :=
    dict_get result "num_env_steps_sampled_lifetime" (Fin 0) in
  print (MsgIteration i avg_reward avg_episode_length total_timesteps) ;;
  best_reward <-
    (if exceeds avg_reward best_reward
     then tell (AlgoSave (BestAt i)) ;;
          print (MsgSavedBest avg_reward) ;;
          ret avg_reward
     else ret best_reward) ;;
  if (20 <? i) && fle avg_reward (Fin 0)
  then print MsgEarlyStopping ;; ret (best_reward, Break)
  else ret (best_reward, Continue).

(** How the [for] statement was left. *)
Inductive loop_exit : Type :=
| Exhausted
| BrokeAt (i : Z).

Fixpoint for_loop (train : trainer) (indices : list Z) (best_reward : pyfloat)
    : prog (pyfloat * loop_exit) :=
  match indices with
  | [] => ret (best_reward, Exhausted)
  | i :: rest =>
      r <- iteration train i best_reward ;;
      match r with
      | (best_reward, Break) => ret (best_reward, BrokeAt i)
      | (best_reward, Continue) => for_loop train rest best_reward
      end
  end.

(** Lines 159-182: [best_reward = -inf], then the loop. *)
Definition training_loop (train : trainer) : prog (pyfloat * loop_exit) :=
  for_loop train (range 100) NegInf.

(** Iteration [k] is reached: the iterations before it ran to their end
    without [break] and without an exception. *)
Definition reaches (train : trainer) (k : nat) : Prop :=
  exists best_reward,
    outcome (for_loop train (range k) NegInf) = Ok (best_reward, Exhausted).

(** The mean reward iteration [i] observes ([train i] returning). *)
Definition avg_reward_at (train : trainer) (i : Z) : pyfloat :=
  match train i with
  | Ok result => episode_reward_mean result
  | Raise _ => Fin 0
  end.

(** What the export block (lines 193-202) meets: whether [algo] is an
    [Algorithm], what [algo.get_policy()] does ([true]: a policy, [false]:
    [None]) and what [torch.save] does. *)
Record exporter : Type := {
  is_algorithm : bool;
  get_policy : result bool;
  torch_save : result unit
}.

Definition export_model (x : exporter) : prog unit :=
  if is_algorithm x then
    has_policy <- lift (get_policy x) ;;
    if has_policy : bool
    then lift (torch_save x) ;; tell TorchSave ;; print MsgTorchSaved
    else ret tt
  else ret tt.

(** The [finally] block (lines 187-206). *)
Definition finalize (x : exporter) : prog unit :=
  tell (AlgoSave Final) ;;
  print MsgFinalSaved ;;
  try_except (export_model x) is_Exception
    (fun e => print (MsgExportFailed e)) ;;
  print MsgCompleted.

(** Lines 151-206. *)
Definition main (train : trainer) (x : exporter) : prog unit :=
  print MsgInitializing ;;
  tell AlgoBuild ;;
  tell MakeDirs ;;
  try_finally
    (try_except
       (training_loop train ;; ret tt)
       is_KeyboardInterrupt
       (fun _ => print MsgInterrupted))
    (finalize x).

End Training.

(* ===================================================================== *)
(** ** [3-Evaluate/FittingAnalysis.py]: input check and fitting block    *)
(* ===================================================================== *)

Module Fitting.

Local Open Scope prog_scope.

(** numpy and scipy, by their outcomes: arrays [Vec], spline objects
    [Spline], and the four calls the fitting block makes. *)
Class FitLib : Type := {
  Vec : Type;
  Spline : Type;
  polyfit : Vec -> Vec -> Z -> result Vec;
  polyval : Vec -> Vec -> result Vec;
  UnivariateSpline : Vec -> Vec -> Z -> result Spline;
  spline_call : Spline -> Vec -> result Vec
}.

(** Lines 21-23: [if not os.path.exists(csv_file): print(...); exit()]. *)
Definition check_input (file_exists : bool) : prog unit :=
  if negb file_exists
  then print MsgFileNotFound ;; raise SystemExit
  else ret tt.

Section Fit.

Context {lib : FitLib}.

Inductive value : Type :=
| VStr (s : string)
| VArr (v : Vec)
| VBool (b : bool).

(** Lines 58-85. [fit_results] starts empty; the [try] body assigns to it
    only after both polynomial fits have returned. *)
Definition fit (x_data y0_mean y1_mean x_fine : Vec) : prog (dict value) :=
  let fit_results : dict value := [] in
  try_except
    (p0_coeffs <- lift (polyfit x_data y0_mean 4) ;;
     y0_poly_fit <- lift (polyval p0_coeffs x_fine) ;;
     p1_coeffs <- lift (polyfit x_data y1_mean 4) ;;
     y1_poly_fit <- lift (polyval p1_coeffs x_fine) ;;
     let fit_results :=
       dict_set fit_results "method" (VStr "4th Order Polynomial") in
     let fit_results := dict_set fit_results "y0_fit" (VArr y0_poly_fit) in
     let fit_results := dict_set fit_results "y1_fit" (VArr y1_poly_fit) in
     let fit_results := dict_set fit_results "success" (VBool true) in
     ret fit_results)
    is_Exception
    (fun e =>
     print (MsgPolyFailed e) ;;
     spl0 <- lift (UnivariateSpline x_data y0_mean 100) ;;
     spl1 <- lift (UnivariateSpline x_data y1_mean 100) ;;
     let fit_results :=
       dict_set fit_results "method" (VStr "Spline Interpolation") in
     y0_fit <- lift (spline_call spl0 x_fine) ;;
     let fit_results := dict_set fit_results "y0_fit" (VArr y0_fit) in
     y1_fit <- lift (spline_call spl1 x_fine) ;;
     let fit_results := dict_set fit_results "y1_fit" (VArr y1_fit) in
     let fit_results := dict_set fit_results "success" (VBool false) in
     ret fit_results).

(** The body of the [try] (lines 61-72) and the body of the [except]
    handler (lines 75-85), each on its own. *)
Definition polynomial_fit (x_data y0_mean y1_mean x_fine : Vec)
    : prog (dict value) :=
  let fit_results : dict value := [] in
  p0_coeffs <- lift (polyfit x_data y0_mean 4) ;;
  y0_poly_fit <- lift (polyval p0_coeffs x_fine) ;;
  p1_coeffs <- lift (polyfit x_data y1_mean 4) ;;
  y1_poly_fit <- lift (polyval p1_coeffs x_fine) ;;
  let fit_results :=
    dict_set fit_results "method" (VStr "4th Order Polynomial") in
  let fit_results := dict_set fit_results "y0_fit" (VArr y0_poly_fit) in
  let fit_results := dict_set fit_results "y1_fit" (VArr y1_poly_fit) in
  let fit_results := dict_set fit_results "success" (VBool true) in
  ret fit_results.

Definition spline_fallback (x_data y0_mean y1_mean x_fine : Vec) (e : exn)
    : prog (dict value) :=
  let fit_results : dict value := [] in
  print (MsgPolyFailed e) ;;
  spl0 <- lift (UnivariateSpline x_data y0_mean 100) ;;
  spl1 <- lift (UnivariateSpline x_data y1_mean 100) ;;
  let fit_results :=
    dict_set fit_results "method" (VStr "Spline Interpolation") in
  y0_fit <- lift (spline_call spl0 x_fine) ;;
  let fit_results := dict_set fit_results "y0_fit" (VArr y0_fit) in
  y1_fit <- lift (spline_call spl1 x_fine) ;;
  let fit_results := dict_set fit_results "y1_fit" (VArr y1_fit) in
  let fit_results := dict_set fit_results "success" (VBool false) in
  ret fit_results.

End Fit.

End Fitting.

(* ===================================================================== *)
(** ** [3-Evaluate/3D-Visualization.py]: font selection                  *)
(* ===================================================================== *)

Module Visualization.

(** Line 35: the preferred fonts, best first. *)
Definition font_options : list string :=
  ["Arial"; "Helvetica"; "Liberation Sans"; "Nimbus Sans";
   "DejaVu Sans"; "FreeSans"; "Bitstream Vera Sans"]%string.

(** [f in available_fonts] *)
Definition contains (l : list string) (f : string) : bool :=
  existsb (String.eqb f) l.

(** [next((f for f in options if f in available), default)]: the first
    option that is available, the default when the generator is empty. *)
Fixpoint next_available (options available : list string) (default : string)
    : string :=
  match options with
  | [] => default
  | f :: rest =>
      if contains available f then f
      else next_available rest available default
  end.

(** Line 39. *)
Definition selected_font (available_fonts : list string) : string :=
  next_available font_options available_fonts "sans-serif".

End Visualization.

(* ===================================================================== *)
(** ** Sample inputs                                                     *)
(* ===================================================================== *)

Module Samples.

Import Training Fitting.

(** Exact rational arithmetic as one instance of the float interface. *)
#[export] Instance QFloat : Float := {|
  F := Q;
  F0 := 0%Q;
  F1 := 1%Q;
  fadd := Qplus;
  is_zero := fun x => Qeq_bool x 0;
  np_sum := fun l => fold_left Qplus l 0%Q
|}.

(** A CSV row: 34 state features all equal to [s], then action, reward
    and terminal flag. *)
Definition csv_row (s a r t : Q) : list Q := repeat s 34 ++ [a; r; t].

(** Two logged transitions, no terminal flag recorded. *)
Definition table2 : ndarray :=
  {| ncols := 37;
     rows := [csv_row 10 0 1 0; csv_row 20 0 (-1) 0] |}.

(** The same two transitions, the second one ending an episode. *)
Definition table2_flagged : ndarray :=
  {| ncols := 37;
     rows := [csv_row 10 0 1 0; csv_row 20 0 (-1) 1] |}.

(** A header line and no data. *)
Definition table_empty : ndarray := {| ncols := 37; rows := [] |}.

(** The scenario of the specification: 2000 rows, rewards alternating
    between 1 and -1, no terminal flag recorded. *)
Definition table2000 : ndarray :=
  {| ncols := 37;
     rows := map (fun k => csv_row (inject_Z k) 0
                             (if Z.even k then 1 else -1) 0)
                 (range 2000) |}.

Definition dataset2 : dataset :=
  {| states := iloc_cols 0 34 table2;
     actions := iloc_cols 34 35 table2;
     rewards := iloc_cols 35 36 table2;
     terminals := iloc_cols 36 37 table2 |}.

(** A trainer whose metric is the negated iteration number, and one that
    reports no metric at all. *)
Definition train_decreasing : trainer :=
  fun i => Ok [("episode_reward_mean"%string, Fin (inject_Z (- i)))].

Definition train_silent : trainer := fun _ => Ok [].

(** A trainer interrupted from the keyboard in its fourth call. *)
Definition train_interrupted : trainer :=
  fun i => if i =? 3 then Raise KeyboardInterrupt
           else Ok [("episode_reward_mean"%string, Fin (inject_Z i))].

(** An export whose [torch.save] fails. *)
Definition export_failing : exporter :=
  {| is_algorithm := true; get_policy := Ok true;
     torch_save := Raise (Error "RuntimeError") |}.

Definition export_working : exporter :=
  {| is_algorithm := true; get_policy := Ok true; torch_save := Ok tt |}.

(** A numerical library whose polynomial fit and spline both reject the
    data (here: any input), arrays being lists of rationals. *)
Definition lib_all_fail : FitLib :=
  {| Vec := list Q; Spline := unit;
     polyfit := fun _ _ _ => Raise (Error "LinAlgError");
     polyval := fun _ _ => Raise ValueError;
     UnivariateSpline := fun _ _ _ => Raise ValueError;
     spline_call := fun _ _ => Raise ValueError |}.

(** A library whose polynomial fit fails while its spline works (the
    spline evaluates to the fitted data's first value everywhere). *)
Definition lib_poly_fails : FitLib :=
  {| Vec := list Q; Spline := Q;
     polyfit := fun _ _ _ => Raise (Error "LinAlgError");
     polyval := fun _ xs => Ok xs;
     UnivariateSpline := fun _ ys _ => Ok (hd 0%Q ys);
     spline_call := fun s xs => Ok (map (fun _ => s) xs) |}.

(** A table that stops before the terminal column. *)
Definition table36 : ndarray :=
  {| ncols := 36; rows := [repeat 1%Q 36; repeat 2%Q 36] |}.

(** The arrays sliced from the empty table. *)
Definition dataset_empty : dataset :=
  {| states := iloc_cols 0 34 table_empty;
     actions := iloc_cols 34 35 table_empty;
     rewards := iloc_cols 35 36 table_empty;
     terminals := iloc_cols 36 37 table_empty |}.

(** A trainer whose mean reward is always 1, and one that fails with a
    framework error in its third call. *)
Definition train_positive : trainer :=
  fun _ => Ok [("episode_reward_mean"%string, Fin 1)].

Definition train_crashing : trainer :=
  fun i => if i =? 2 then Raise (Error "RayTaskError")
           else Ok [("episode_reward_mean"%string, Fin (inject_Z i))].

(** A trainer with no finished episode in its first iteration (the mean
    of no episode returns is not a number), then a mean of 5; and one
    whose first mean is minus infinity. Both are interrupted in their
    third call. *)
Definition train_nan_then_5 : trainer :=
  fun i => if i =? 0 then Ok [("episode_reward_mean"%string, NaN)]
           else if i =? 1 then Ok [("episode_reward_mean"%string, Fin 5)]
           else Raise KeyboardInterrupt.

Definition train_neginf : trainer :=
  fun i => if i =? 0 then Ok [("episode_reward_mean"%string, NegInf)]
           else if i =? 1 then Ok [("episode_reward_mean"%string, Fin 5)]
           else Raise KeyboardInterrupt.

(** An export interrupted from the keyboard inside [torch.save]. *)
Definition export_interrupted : exporter :=
  {| is_algorithm := true; get_policy := Ok true;
     torch_save := Raise KeyboardInterrupt |}.

(** A library whose polynomial fit works (coefficients are the fitted
    data, evaluation returns them), and one interrupted inside it. *)
Definition lib_poly_works : FitLib :=
  {| Vec := list Q; Spline := unit;
     polyfit := fun _ ys _ => Ok ys;
     polyval := fun p _ => Ok p;
     UnivariateSpline := fun _ _ _ => Raise ValueError;
     spline_call := fun _ _ => Raise ValueError |}.

Definition lib_interrupted : FitLib :=
  {| Vec := list Q; Spline := unit;
     polyfit := fun _ _ _ => Raise KeyboardInterrupt;
     polyval := fun p _ => Ok p;
     UnivariateSpline := fun _ _ _ => Ok tt;
     spline_call := fun _ xs => Ok xs |}.

End Samples.

(* ===================================================================== *)
(** ** Facts about the loader                                            *)
(* ===================================================================== *)

Import Training.

Section LoaderFacts.

Context {fl : Float}.

Lemma Ok_inj {A} (a b : A) : Ok a = Ok b -> a = b.
Proof. intros H. now injection H. Qed.

Lemma slice_start_last_1000 (n : nat) :
  Z.to_nat (slice_start (-1000) (Z.of_nat n)) = (n - Nat.min 1000 n)%nat.
Proof.
  unfold slice_start. change (-1000 <? 0) with true. cbv iota. lia.
Qed.

Lemma len_iloc_cols lo hi df : len (iloc_cols lo hi df) = len df.
Proof. unfold len, iloc_cols. simpl. apply length_map. Qed.

Lemma ncols_terminal_column df :
  (37 <= ncols df)%nat -> ncols (iloc_cols 36 37 df) = 1%nat.
Proof. intros H. unfold iloc_cols. cbn [ncols]. lia. Qed.

(** In a table of at least 37 columns the slice [36:37] of a row is the
    one-element list holding its terminal flag. *)
Lemma terminal_slice_singleton (r : list F) :
  (37 <= List.length r)%nat ->
  exists x, firstn (37 - 36) (skipn 36 r) = [x].
Proof.
  intros H. remember (skipn 36 r) as tl eqn:E.
  assert (L : List.length tl = (List.length r - 36)%nat)
    by (subst tl; apply length_skipn).
  destruct tl as [|x tl']; simpl in L; [lia|].
  exists x. reflexivity.
Qed.

Lemma flag_terminal_column df i :
  rectangular df -> (37 <= ncols df)%nat -> (i < len df)%nat ->
  exists x, nth_error (rows (iloc_cols 36 37 df)) i = Some [x].
Proof.
  intros R W Hi. unfold iloc_cols. cbn [rows].
  rewrite nth_error_map.
  destruct (nth_error (rows df) i) as [r|] eqn:E.
  - assert (In r (rows df)) as Hin by (eapply nth_error_In; eauto).
    unfold rectangular in R. rewrite Forall_forall in R.
    specialize (R r Hin).
    destruct (terminal_slice_singleton r) as [x Hx]; [lia|].
    exists x. cbn [option_map]. now rewrite Hx.
  - apply nth_error_None in E. unfold len in Hi. lia.
Qed.

(** Rows of the overwritten array: untouched before the start of the
    slice, column 0 replaced from there on. *)
Lemma nth_error_tail_update (s : nat) (v : F) (l : list (list F)) (i : nat) :
  nth_error (firstn s l ++ map (set_col 0 v) (skipn s l)) i =
  if (s <=? i)%nat then option_map (set_col 0 v) (nth_error l i)
  else nth_error l i.
Proof.
  destruct (Nat.leb_spec s i) as [Hle|Hlt].
  - destruct (Nat.le_gt_cases (List.length l) s) as [Hlen|Hlen].
    + rewrite skipn_all2 by lia. rewrite firstn_all2 by lia.
      simpl. rewrite app_nil_r.
      assert (nth_error l i = None) as -> by (apply nth_error_None; lia).
      reflexivity.
    + rewrite nth_error_app2; rewrite length_firstn; [|lia].
      rewrite Nat.min_l by lia.
      rewrite nth_error_map, nth_error_skipn.
      replace (s + (i - s))%nat with i by lia. reflexivity.
  - destruct (Nat.le_gt_cases (List.length l) i) as [Hlen|Hlen].
    + rewrite firstn_all2 by lia. rewrite skipn_all2 by lia.
      simpl. now rewrite app_nil_r.
    + rewrite nth_error_app1 by (rewrite length_firstn; lia).
      rewrite nth_error_firstn.
      destruct (Nat.ltb_spec i s); [reflexivity | lia].
Qed.

Lemma length_tail_update (s : nat) (v : F) (l : list (list F)) :
  List.length (firstn s l ++ map (set_col 0 v) (skipn s l)) = List.length l.
Proof.
  rewrite <- (firstn_skipn s l) at 3.
  rewrite !length_app, length_map. reflexivity.
Qed.

(** Flags of the terminal column once [terminals[-1000:, 0] = 1] ran. *)
Lemma flag_after_fallback (df : ndarray) (i : nat) :
  rectangular df -> (37 <= ncols df)%nat -> (i < len df)%nat ->
  let n := len df in
  let t0 := iloc_cols 36 37 df in
  flag {| ncols := 1;
          rows := firstn (n - Nat.min 1000 n) (rows t0)
                  ++ map (set_col 0 F1)
                       (skipn (n - Nat.min 1000 n) (rows t0)) |} i =
  if (n - Nat.min 1000 n <=? i)%nat then Some F1 else flag t0 i.
Proof.
  intros R W Hi n t0. unfold flag. cbn [rows].
  rewrite nth_error_tail_update.
  destruct (flag_terminal_column df i R W Hi) as [x Hx].
  fold t0 in Hx. rewrite Hx.
  destruct (n - Nat.min 1000 n <=? i)%nat; reflexivity.
Qed.

(** Loading a table of at least 37 columns succeeds, prints the two
    banner lines and returns the sliced arrays. *)
Lemma load_dataset_table (df : ndarray) :
  (37 <= ncols df)%nat ->
  load_dataset (Table df) =
  ([Print MsgLoading; Print (MsgLoaded (len df))],
   Ok {| states := iloc_cols 0 34 df;
         actions := iloc_cols 34 35 df;
         rewards := iloc_cols 35 36 df;
         terminals :=
           let t0 := iloc_cols 36 37 df in
           let s := (len df - Nat.min 1000 (len df))%nat in
           if is_zero (np_sum (concat (rows t0)))
           then {| ncols := 1;
                   rows := firstn s (rows t0)
                           ++ map (set_col 0 F1) (skipn s (rows t0)) |}
           else t0 |}).
Proof.
  intros W. unfold load_dataset. cbv zeta.
  cbn [read_csv lift print tell bind app].
  destruct (is_zero (np_sum (concat (rows (iloc_cols 36 37 df))))).
  - unfold setitem_tail_col.
    rewrite (ncols_terminal_column df W).
    change (0 <? 0) with false. cbv iota.
    change ((0 <=? 0) && (0 <? Z.of_nat 1)) with true. cbv iota.
    rewrite len_iloc_cols, slice_start_last_1000.
    cbn [lift bind ret app]. rewrite len_iloc_cols. reflexivity.
  - cbn [lift bind ret app]. rewrite len_iloc_cols. reflexivity.
Qed.

(** C1. When the terminal column of the loaded table sums to zero, the
    loader's fallback leaves exactly the last [min 1000 n] of the [n] rows
    with terminal flag 1 and every earlier flag as it was (so, when no row
    carried flag 1 before, the rows with flag 1 are precisely the last
    [min 1000 n]); states, actions and rewards are the parsed columns in
    either case; and when the sum is not zero the terminal column is the
    parsed one, no row modified. *)
Theorem load_terminal_fallback (df : ndarray) :
  rectangular df -> (37 <= ncols df)%nat ->
  let n := len df in
  let t0 := iloc_cols 36 37 df in
  exists ds,
    outcome (load_dataset (Table df)) = Ok ds /\
    states ds = iloc_cols 0 34 df /\
    actions ds = iloc_cols 34 35 df /\
    rewards ds = iloc_cols 35 36 df /\
    len (terminals ds) = n /\
    (is_zero (np_sum (concat (rows t0))) = true ->
       (forall i, (i < n)%nat ->
          flag (terminals ds) i =
          if (n - Nat.min 1000 n <=? i)%nat then Some F1 else flag t0 i) /\
       ((forall i, flag t0 i <> Some F1) ->
        forall i, (i < n)%nat ->
          flag (terminals ds) i = Some F1 <-> (n - Nat.min 1000 n <= i)%nat)) /\
    (is_zero (np_sum (concat (rows t0))) = false -> terminals ds = t0).
Proof.
  intros R W n t0.
  eexists. unfold outcome. rewrite (load_dataset_table df W). cbn [snd].
  split; [reflexivity|]. cbn [states actions rewards terminals].
  do 3 (split; [reflexivity|]).
  cbv zeta. fold t0. fold n.
  destruct (is_zero (np_sum (concat (rows t0)))) eqn:Z0.
  - assert (Hflag : forall i, (i < n)%nat ->
       flag {| ncols := 1;
               rows := firstn (n - Nat.min 1000 n) (rows t0)
                       ++ map (set_col 0 F1)
                            (skipn (n - Nat.min 1000 n) (rows t0)) |} i =
       if (n - Nat.min 1000 n <=? i)%nat then Some F1 else flag t0 i)
      by (intros i Hi; exact (flag_after_fallback df i R W Hi)).
    split; [|split; [|discriminate]].
    + unfold len. cbn [rows]. rewrite length_tail_update.
      subst t0. apply len_iloc_cols.
    + intros _. split; [exact Hflag|].
      intros Hnone i Hi. rewrite (Hflag i Hi).
      destruct (Nat.leb_spec (n - Nat.min 1000 n) i) as [Hle|Hlt].
      * split; [intros _; exact Hle | reflexivity].
      * split; [intros H; now apply Hnone in H | lia].
  - split; [subst t0; apply len_iloc_cols|].
    split; [discriminate | reflexivity].
Qed.

End LoaderFacts.

(** The two-row sample table sums to zero on its terminal column: both of
    its rows end up flagged, the other arrays being the parsed columns. *)
Lemma load_terminal_fallback_witness :
  rectangular Samples.table2 /\ (37 <= ncols Samples.table2)%nat /\
  exists ds,
    outcome (load_dataset (Table Samples.table2)) = Ok ds /\
    states ds = iloc_cols 0 34 Samples.table2 /\
    flag (terminals ds) 0 = Some F1 /\ flag (terminals ds) 1 = Some F1.
Proof.
  assert (R : rectangular Samples.table2)
    by (repeat constructor).
  assert (W : (37 <= ncols Samples.table2)%nat) by (simpl; lia).
  split; [exact R|]. split; [exact W|].
  destruct (load_terminal_fallback Samples.table2 R W)
    as (ds & Hload & Hs & _ & _ & _ & Hzero & _).
  exists ds. split; [exact Hload|]. split; [exact Hs|].
  destruct (Hzero eq_refl) as [Hflag _].
  split.
  - exact (Hflag 0%nat (le_S _ _ (le_n 1))).
  - exact (Hflag 1%nat (le_n 2)).
Defined.

(** The scenario of the specification: of 2000 unflagged rows, rows 1000
    to 1999 are flagged by the loader and row 999 is not. *)
Example load_table2000 :
  match outcome (load_dataset (Table Samples.table2000)) with
  | Ok ds =>
      (len (terminals ds),
       map (flag (terminals ds)) [0; 999; 1000; 1999]%nat)
  | Raise _ => (0%nat, [])
  end = (2000%nat, [Some 0%Q; Some 0%Q; Some 1%Q; Some 1%Q]).
Proof. vm_compute. reflexivity. Qed.


Section LoaderFailures.

Context {fl : Float}.

(** C7 (as the code has it). The loader validates nothing and handles
    nothing: a missing or malformed source makes [pd.read_csv] raise, and
    the exception leaves the script unhandled after the loading banner, no
    error line printed; a table without rows loads like any other, giving
    empty state, action, reward and terminal arrays. *)
Theorem load_dataset_unguarded (extra_columns : nat) :
  load_dataset Missing = ([Print MsgLoading], Raise FileNotFoundError) /\
  load_dataset Malformed = ([Print MsgLoading], Raise ParserError) /\
  load_dataset (Table {| ncols := 37 + extra_columns; rows := [] |}) =
    ([Print MsgLoading; Print (MsgLoaded 0)],
     Ok {| states := {| ncols := 34; rows := [] |};
           actions := {| ncols := 1; rows := [] |};
           rewards := {| ncols := 1; rows := [] |};
           terminals := {| ncols := 1; rows := [] |} |}).
Proof.
  split; [reflexivity|]. split; [reflexivity|].
  rewrite load_dataset_table by (cbn [ncols]; lia).
  unfold iloc_cols, len. cbn [ncols rows map List.length].
  cbv zeta. cbn [Nat.min Nat.sub firstn skipn map app].
  replace (Nat.min 34 (37 + extra_columns) - 0)%nat with 34%nat by lia.
  replace (Nat.min 35 (37 + extra_columns)
           - Nat.min 34 (37 + extra_columns))%nat with 1%nat by lia.
  replace (Nat.min 36 (37 + extra_columns)
           - Nat.min 35 (37 + extra_columns))%nat with 1%nat by lia.
  replace (Nat.min 37 (37 + extra_columns)
           - Nat.min 36 (37 + extra_columns))%nat with 1%nat by lia.
  destruct (is_zero (np_sum (concat []))); reflexivity.
Qed.

End LoaderFailures.

(** C7 (as stated) fails. With the source file missing the loader prints
    no error line and does not exit: [FileNotFoundError] propagates; and
    the empty table is accepted, nothing checking for empty arrays. *)
Lemma load_dataset_missing_unhandled :
  trace (load_dataset (fl := Samples.QFloat) Missing) = [Print MsgLoading] /\
  outcome (load_dataset (fl := Samples.QFloat) Missing)
    = Raise FileNotFoundError /\
  outcome (load_dataset (fl := Samples.QFloat) Missing) <> Raise SystemExit /\
  exists ds,
    outcome (load_dataset (Table Samples.table_empty)) = Ok ds /\
    len (states ds) = 0%nat /\ len (actions ds) = 0%nat /\
    len (rewards ds) = 0%nat /\ len (terminals ds) = 0%nat.
Proof.
  split; [reflexivity|]. split; [reflexivity|]. split; [discriminate|].
  eexists. vm_compute. repeat split.
Qed.

(* ===================================================================== *)
(** ** Facts about [OfflineEnv]                                          *)
(* ===================================================================== *)

Section EnvFacts.

Context {fl : Float}.

Lemma getitem_in_range {A} (l : list A) (i : Z) :
  0 <= i < Z.of_nat (List.length l) ->
  exists x, getitem l i = Ok x /\ nth_error l (Z.to_nat i) = Some x.
Proof.
  intros Hi. unfold getitem.
  destruct (Z.ltb_spec i 0) as [Hneg|_]; [lia|].
  destruct (Z.leb_spec 0 i) as [_|Hneg]; [|lia].
  destruct (Z.ltb_spec i (Z.of_nat (List.length l))) as [_|Hge]; [|lia].
  cbn [andb].
  destruct (nth_error l (Z.to_nat i)) as [x|] eqn:E.
  - exists x. split; reflexivity.
  - apply nth_error_None in E. lia.
Qed.

Lemma getitem2_in_range (a : ndarray) (i : Z) :
  Forall (fun r => r <> []) (rows a) ->
  0 <= i < Z.of_nat (len a) ->
  exists x, getitem2 a i = Ok x /\ flag a (Z.to_nat i) = Some x.
Proof.
  intros Hne Hi. unfold getitem2, flag.
  destruct (getitem_in_range (rows a) i Hi) as (r & Hget & Hnth).
  rewrite Hget, Hnth.
  rewrite Forall_forall in Hne.
  specialize (Hne r (nth_error_In _ _ Hnth)).
  destruct r as [|x r']; [congruence|].
  exists x. split; reflexivity.
Qed.

(** What one [step] does from an in-range cursor: it reads observation,
    reward and terminal flag of the row under the cursor, adds the reward
    to the episode total, and moves the cursor one row on, cyclically. *)
Lemma step_in_range {Action} (env : OfflineEnv) (a : Action) :
  aligned (_dataset env) ->
  0 <= _index env < Z.of_nat (len (states (_dataset env))) ->
  exists o r t,
    nth_error (rows (states (_dataset env))) (Z.to_nat (_index env)) = Some o /\
    flag (rewards (_dataset env)) (Z.to_nat (_index env)) = Some r /\
    flag (terminals (_dataset env)) (Z.to_nat (_index env)) = Some t /\
    step env a =
    Ok ({| obs := o; reward := r; terminated := negb (is_zero t);
           truncated := false;
           info_episode_reward := fadd (_current_episode_reward env) r |},
        {| _dataset := _dataset env;
           _index := (_index env + 1) mod Z.of_nat (len (states (_dataset env)));
           _current_episode_reward := fadd (_current_episode_reward env) r;
           _current_episode_length := _current_episode_length env + 1 |}).
Proof.
  intros (Hr & Ht & Hrne & Htne) Hi.
  destruct (getitem_in_range (rows (states (_dataset env))) (_index env))
    as (o & Ho & Hon); [exact Hi|].
  destruct (getitem2_in_range (rewards (_dataset env)) (_index env) Hrne)
    as (r & Hrw & Hrf); [rewrite Hr; exact Hi|].
  destruct (getitem2_in_range (terminals (_dataset env)) (_index env) Htne)
    as (t & Htm & Htf); [rewrite Ht; exact Hi|].
  exists o, r, t. repeat (split; [assumption|]).
  unfold step. rewrite Ho, Hrw, Htm. unfold mod_.
  destruct (Z.eqb_spec (Z.of_nat (len (states (_dataset env)))) 0) as [E|_];
    [lia|reflexivity].
Qed.

(** C3. [step] never looks at its action argument: from one environment
    state, any two proposed actions give the same returned tuple and the
    same successor state (or the same exception). *)
Theorem step_ignores_action (Action : Type) (env : OfflineEnv)
    (a1 a2 : Action) :
  step env a1 = step env a2.
Proof. reflexivity. Qed.

(** C4. On a table of [n > 0] rows, [N] consecutive [step] calls from
    cursor [i] in [[0, n)] all return, and leave the cursor at
    [(i + N) mod n], inside [[0, n)], whatever the terminal flags and the
    proposed actions are. *)
Theorem steps_cursor_cyclic {Action} (acts : list Action) (env : OfflineEnv) :
  aligned (_dataset env) ->
  0 < Z.of_nat (len (states (_dataset env))) ->
  0 <= _index env < Z.of_nat (len (states (_dataset env))) ->
  exists env',
    steps env acts = Ok env' /\
    _index env' = (_index env + Z.of_nat (List.length acts))
                  mod Z.of_nat (len (states (_dataset env))) /\
    0 <= _index env' < Z.of_nat (len (states (_dataset env))) /\
    _dataset env' = _dataset env.
Proof.
  revert env.
  induction acts as [|a acts IH]; intros env Hal Hn Hi.
  - exists env. cbn [steps List.length Z.of_nat].
    rewrite Z.add_0_r, Z.mod_small by lia. repeat split; lia.
  - destruct (step_in_range env a Hal Hi) as (o & r & t & _ & _ & _ & Hstep).
    cbn [steps]. rewrite Hstep.
    match goal with
    | |- context [steps ?e acts] => specialize (IH e)
    end.
    cbn [_dataset _index] in IH.
    destruct IH as (env' & Hsteps & Hidx & Hrange & Hds);
      [exact Hal | exact Hn | apply Z.mod_pos_bound; lia |].
    exists env'. split; [exact Hsteps|].
    split; [|split; [exact Hrange | exact Hds]].
    rewrite Hidx, Zplus_mod_idemp_l. f_equal.
    cbn [List.length]. lia.
Qed.

(** Loading a rectangular table of at least 37 columns gives aligned
    arrays. *)
Lemma load_dataset_aligned (df : ndarray) (ds : dataset) :
  rectangular df -> (37 <= ncols df)%nat ->
  outcome (load_dataset (Table df)) = Ok ds ->
  aligned ds /\ len (states ds) = len df.
Proof.
  intros R W Hload. unfold outcome in Hload.
  rewrite (load_dataset_table df W) in Hload. cbn [snd] in Hload.
  apply Ok_inj in Hload. subst ds. unfold aligned.
  cbn [states rewards terminals]. cbv zeta.
  assert (Hnonempty : forall (a : ndarray),
            (forall i, (i < len a)%nat -> exists x, flag a i = Some x) ->
            Forall (fun r => r <> []) (rows a)).
  { intros a Ha. apply Forall_forall. intros r Hin.
    apply In_nth_error in Hin. destruct Hin as [i Hi].
    destruct (Ha i) as [x Hx].
    - unfold len. apply nth_error_Some. congruence.
    - unfold flag in Hx. rewrite Hi in Hx. destruct r; [discriminate|congruence]. }
  assert (Hcol : forall lo i, (lo < 37)%nat -> (i < len df)%nat ->
            exists x, flag (iloc_cols lo (S lo) df) i = Some x).
  { intros lo i Hlo Hi. unfold flag, iloc_cols. cbn [rows].
    rewrite nth_error_map.
    destruct (nth_error (rows df) i) as [r|] eqn:E.
    - unfold rectangular in R. rewrite Forall_forall in R.
      specialize (R r (nth_error_In _ _ E)). cbn [option_map].
      replace (S lo - lo)%nat with 1%nat by lia.
      destruct (skipn lo r) as [|x tl] eqn:Es.
      + pose proof (length_skipn lo r) as L. rewrite Es in L.
        cbn [List.length] in L. lia.
      + exists x. reflexivity.
    - apply nth_error_None in E. unfold len in Hi. lia. }
  assert (Hlen : len (if is_zero (np_sum (concat (rows (iloc_cols 36 37 df))))
                      then {| ncols := 1;
                              rows := firstn (len df - Nat.min 1000 (len df))
                                        (rows (iloc_cols 36 37 df))
                                      ++ map (set_col 0 F1)
                                           (skipn (len df - Nat.min 1000 (len df))
                                              (rows (iloc_cols 36 37 df))) |}
                      else iloc_cols 36 37 df) = len df).
  { destruct (is_zero _).
    - unfold len at 1. cbn [rows]. rewrite length_tail_update.
      apply len_iloc_cols.
    - apply len_iloc_cols. }
  rewrite !len_iloc_cols. rewrite Hlen.
  repeat split.
  - apply Hnonempty. intros i Hi. rewrite len_iloc_cols in Hi.
    apply Hcol; [lia | exact Hi].
  - apply Hnonempty. intros i Hi. rewrite Hlen in Hi.
    destruct (is_zero (np_sum (concat (rows (iloc_cols 36 37 df))))).
    + rewrite (flag_after_fallback df i R W Hi).
      destruct (len df - Nat.min 1000 (len df) <=? i)%nat;
        [eexists; reflexivity | apply Hcol; [lia | exact Hi]].
    + apply Hcol; [lia | exact Hi].
Qed.

End EnvFacts.

Lemma dataset2_aligned : aligned Samples.dataset2.
Proof.
  repeat split; try reflexivity;
    repeat constructor; discriminate.
Qed.

(** Three steps on the two-row sample table, from cursor 0: the cursor
    ends at [(0 + 3) mod 2 = 1]. *)
Lemma steps_cursor_cyclic_witness :
  aligned Samples.dataset2 /\
  0 < Z.of_nat (len (states Samples.dataset2)) /\
  0 <= _index (init Samples.dataset2)
     < Z.of_nat (len (states Samples.dataset2)) /\
  exists env',
    steps (init Samples.dataset2) [tt; tt; tt] = Ok env' /\
    _index env' = 1.
Proof.
  assert (Hn : 0 < Z.of_nat (len (states Samples.dataset2))) by reflexivity.
  assert (Hi : 0 <= _index (init Samples.dataset2)
                  < Z.of_nat (len (states Samples.dataset2)))
    by (split; [discriminate | reflexivity]).
  split; [exact dataset2_aligned|]. split; [exact Hn|]. split; [exact Hi|].
  destruct (steps_cursor_cyclic [tt; tt; tt] (init Samples.dataset2)
              dataset2_aligned Hn Hi) as (env' & Hsteps & Hidx & _ & _).
  exists env'. split; [exact Hsteps | exact Hidx].
Defined.

(** C2 at a concrete state. On the two-row sample table with the cursor
    on row 0, [step] returns row 0's observation (the one [reset] has just
    handed out), with row 0's reward and flag, [truncated = False] and the
    episode total including that reward; the logged next observation, row
    1's, is a different vector. *)
Theorem step_observation_is_cursor_row :
  exists env',
    step (init Samples.dataset2) tt =
      Ok (@Build_step_result Samples.QFloat
            (repeat 10%Q 34) 1%Q false false 1%Q, env') /\
    _index env' = 1 /\
    nth_error (rows (states Samples.dataset2)) 0 = Some (repeat 10%Q 34) /\
    nth_error (rows (states Samples.dataset2)) 1 = Some (repeat 20%Q 34) /\
    repeat 10%Q 34 <> repeat 20%Q 34.
Proof.
  eexists. split; [vm_compute; reflexivity|].
  split; [reflexivity|]. split; [reflexivity|]. split; [reflexivity|].
  discriminate.
Qed.

(* ===================================================================== *)
(** ** Facts about the training driver                                   *)
(* ===================================================================== *)

Section DriverFacts.

Variable train : trainer.

Lemma Qltb_lt (x y : Q) : Qltb x y = true <-> (x < y)%Q.
Proof.
  unfold Qltb. rewrite negb_true_iff.
  destruct (Qle_bool y x) eqn:E.
  - apply Qle_bool_iff in E. split; [discriminate|].
    intros H. exfalso. exact (Qlt_not_le _ _ H E).
  - split; [intros _ | reflexivity].
    apply Qnot_le_lt. intros H. apply Qle_bool_iff in H. congruence.
Qed.

Lemma Qltb_irrefl (a : Q) : Qltb a a = false.
Proof.
  destruct (Qltb a a) eqn:E; [|reflexivity].
  apply Qltb_lt in E. exfalso. exact (Qlt_irrefl _ E).
Qed.

Lemma Qltb_false (a b : Q) : Qltb a b = false <-> (b <= a)%Q.
Proof.
  unfold Qltb. rewrite negb_false_iff. apply Qle_bool_iff.
Qed.

(** Order facts about float comparison; a NaN on either side makes every
    comparison false. *)
Lemma fgt_not_nan (x y : pyfloat) :
  fgt x y = true -> is_nan x = false /\ is_nan y = false.
Proof. destruct x, y; cbn; intros H; try discriminate; split; reflexivity. Qed.

Lemma fgt_irrefl (x : pyfloat) : fgt x x = false.
Proof. destruct x; cbn; try reflexivity. apply Qltb_irrefl. Qed.

Lemma fgt_NegInf (x y : pyfloat) : fgt x y = true -> fgt x NegInf = true.
Proof. destruct x; cbn; intros H; try discriminate; reflexivity. Qed.

Lemma fgt_trans (x y z : pyfloat) :
  fgt x y = true -> fgt y z = true -> fgt x z = true.
Proof.
  destruct x as [| | |a], y as [| | |b], z as [| | |c]; cbn;
    intros H1 H2; try discriminate; try reflexivity.
  apply Qltb_lt in H1, H2. apply Qltb_lt.
  exact (Qlt_trans _ _ _ H2 H1).
Qed.

(** [x > y] and not [z > y], for a number [z]: then [x > z]. *)
Lemma fgt_above (x y z : pyfloat) :
  fgt x y = true -> fgt z y = false -> is_nan z = false -> fgt x z = true.
Proof.
  destruct x as [| | |a], y as [| | |b], z as [| | |c]; cbn;
    intros H1 H2 H3; try discriminate; try reflexivity.
  apply Qltb_lt in H1. apply Qltb_false in H2. apply Qltb_lt.
  exact (Qle_lt_trans _ _ _ H2 H1).
Qed.

Lemma feq_not_gt (x y : pyfloat) :
  feq x y = true -> fgt y x = false /\ is_nan x = false.
Proof.
  destruct x as [| | |a], y as [| | |b]; cbn; intros H; try discriminate;
    split; try reflexivity.
  apply Qeq_bool_iff in H. apply Qltb_false. rewrite H. apply Qle_refl.
Qed.

Lemma fgt_not_fle (x y : pyfloat) : fgt x y = true -> fle x y = false.
Proof.
  destruct x as [| | |a], y as [| | |b]; cbn; intros H; try discriminate;
    try reflexivity.
  apply Qltb_lt in H. destruct (Qle_bool a b) eqn:E; [|reflexivity].
  apply Qle_bool_iff in E. exfalso. exact (Qlt_not_le _ _ H E).
Qed.

Lemma fgt_NegInf_iff (x : pyfloat) :
  fgt x NegInf = true <-> x = PosInf \/ exists q, x = Fin q.
Proof.
  destruct x as [| | |a]; cbn; split; intros H; try discriminate;
    try reflexivity; try (destruct H as [H|[q H]]; discriminate).
  - left. reflexivity.
  - right. exists a. reflexivity.
Qed.

(** One iteration whose [algo.train()] returns, in closed form. *)
Lemma iteration_returns (i : Z) (best : pyfloat) (m : metrics) :
  train i = Ok m ->
  let avg := episode_reward_mean m in
  iteration train i best =
  (Print (MsgIteration i avg (dict_get m "episode_len_mean" (Fin 0))
            (dict_get m "num_env_steps_sampled_lifetime" (Fin 0)))
   :: (if exceeds avg best
       then [AlgoSave (BestAt i); Print (MsgSavedBest avg)] else [])
   ++ (if (20 <? i) && fle avg (Fin 0) then [Print MsgEarlyStopping] else []),
   Ok (if exceeds avg best then avg else best,
       if (20 <? i) && fle avg (Fin 0) then Break else Continue)).
Proof.
  intros H. cbv zeta. unfold iteration. rewrite H.
  cbn [lift bind print tell app]. cbv zeta.
  destruct (exceeds (episode_reward_mean m) best);
    destruct ((20 <? i) && fle (episode_reward_mean m) (Fin 0));
    reflexivity.
Qed.

Lemma iteration_raises (i : Z) (best : pyfloat) (e : exn) :
  train i = Raise e -> iteration train i best = ([], Raise e).
Proof. intros H. unfold iteration. rewrite H. reflexivity. Qed.

(** The only checkpoint an iteration can write is its own. *)
Lemma iteration_save (i k : Z) (best : pyfloat) :
  In (AlgoSave (BestAt k)) (trace (iteration train i best)) <->
  k = i /\ exists m, train i = Ok m /\
                     exceeds (episode_reward_mean m) best = true.
Proof.
  destruct (train i) as [m|e] eqn:E.
  - rewrite (iteration_returns i best m E). unfold trace. cbn [fst].
    destruct (exceeds (episode_reward_mean m) best) eqn:X;
      destruct ((20 <? i) && fle (episode_reward_mean m) (Fin 0));
      cbn [In app]; split.
    all: try (intros [H|[H|[H|[H|[]]]]]; try discriminate H).
    all: try (intros [H|[H|[H|[]]]]; try discriminate H).
    all: try (intros [H|[H|[]]]; try discriminate H).
    all: try (intros [H|[]]; try discriminate H).
    all: try (injection H as <-; split; [reflexivity | exists m; split; [reflexivity | exact X]]).
    all: try (intros [-> _]; right; left; reflexivity).
    all: intros [_ (m' & Hm & Hx)]; injection Hm as <-; congruence.
  - rewrite (iteration_raises i best e E). unfold trace. cbn [fst In].
    split; [intros [] | intros [_ (m & Hm & _)]; discriminate].
Qed.

(** Unfolding the loop by one iteration. *)
Lemma for_loop_cons (i : Z) (rest : list Z) (best : pyfloat) :
  for_loop train (i :: rest) best =
  match iteration train i best with
  | (t, Ok (best', Break)) => (t, Ok (best', BrokeAt i))
  | (t, Ok (best', Continue)) =>
      (t ++ trace (for_loop train rest best'),
       outcome (for_loop train rest best'))
  | (t, Raise e) => (t, Raise e)
  end.
Proof.
  cbn [for_loop]. unfold bind.
  destruct (iteration train i best) as [t [[best' [|]]|e]].
  - unfold trace, outcome.
    destruct (for_loop train rest best') as [t' r']. reflexivity.
  - cbn [ret]. rewrite app_nil_r. reflexivity.
  - reflexivity.
Qed.

(** A loop over [l1 ++ l2] continues into [l2] exactly when the part over
    [l1] is exhausted. *)
Lemma for_loop_app (l1 l2 : list Z) (best : pyfloat) :
  for_loop train (l1 ++ l2) best =
  match for_loop train l1 best with
  | (t1, Ok (best1, Exhausted)) =>
      (t1 ++ trace (for_loop train l2 best1),
       outcome (for_loop train l2 best1))
  | other => other
  end.
Proof.
  revert best. induction l1 as [|i l1 IH]; intros best.
  - cbn [app for_loop ret]. unfold trace, outcome.
    destruct (for_loop train l2 best). reflexivity.
  - rewrite <- app_comm_cons. rewrite !for_loop_cons.
    destruct (iteration train i best) as [t [[best' [|]]|e]];
      try reflexivity.
    rewrite IH. unfold trace, outcome.
    destruct (for_loop train l1 best') as [t1 [[best1 [|j]]|e]];
      cbn [fst snd]; try reflexivity.
    rewrite app_assoc. reflexivity.
Qed.

Lemma for_loop_saves (l : list Z) (best : pyfloat) (k : Z) :
  In (AlgoSave (BestAt k)) (trace (for_loop train l best)) -> In k l.
Proof.
  revert best. induction l as [|i l IH]; intros best.
  - intros [].
  - rewrite for_loop_cons.
    pose proof (iteration_save i k best) as Hit. unfold trace in Hit, IH |- *.
    destruct (iteration train i best) as [t [[best' [|]]|e]];
      cbn [fst] in *; intros H.
    + apply in_app_or in H. destruct H as [H|H].
      * left. symmetry. now apply Hit.
      * right. exact (IH _ H).
    + left. symmetry. now apply Hit.
    + left. symmetry. now apply Hit.
Qed.


Lemma range_S (k : nat) : range (S k) = range k ++ [Z.of_nat k].
Proof. unfold range. rewrite seq_S, map_app. reflexivity. Qed.

Lemma range_split (k r : nat) :
  range (k + S r) =
  range k ++ Z.of_nat k :: map Z.of_nat (seq (S k) r).
Proof. unfold range. rewrite seq_app, map_app. reflexivity. Qed.

Lemma range_before (k : nat) (j : Z) : In j (range k) <-> 0 <= j < Z.of_nat k.
Proof.
  unfold range. rewrite in_map_iff. split.
  - intros (x & <- & Hx). apply in_seq in Hx. lia.
  - intros H. exists (Z.to_nat j). split; [lia|]. apply in_seq. lia.
Qed.

Lemma range_after (k r : nat) (j : Z) :
  In j (map Z.of_nat (seq (S k) r)) -> Z.of_nat k < j.
Proof.
  rewrite in_map_iff. intros (x & <- & Hx). apply in_seq in Hx. lia.
Qed.

Lemma avg_reward_at_returns (i : Z) (m : metrics) :
  train i = Ok m -> avg_reward_at train i = episode_reward_mean m.
Proof. intros H. unfold avg_reward_at. now rewrite H. Qed.

(** Loop invariant. When iteration [k] is reached, every earlier call of
    [algo.train()] has returned; [best_reward] is a number; no mean seen
    so far is greater than it; and it is either still minus infinity or
    the mean of an earlier iteration [j] that is greater than every mean
    before [j] that is a number. *)
Lemma best_invariant (k : nat) (best : pyfloat) :
  outcome (for_loop train (range k) NegInf) = Ok (best, Exhausted) ->
  (forall j, (j < k)%nat -> exists m, train (Z.of_nat j) = Ok m) /\
  is_nan best = false /\
  (forall i, (i < k)%nat ->
     fgt (avg_reward_at train (Z.of_nat i)) best = false) /\
  (best = NegInf \/
   exists j, (j < k)%nat /\
     best = avg_reward_at train (Z.of_nat j) /\
     forall i, (i < j)%nat ->
       is_nan (avg_reward_at train (Z.of_nat i)) = true \/
       fgt (avg_reward_at train (Z.of_nat j))
           (avg_reward_at train (Z.of_nat i)) = true).
Proof.
  revert best. induction k as [|k IH]; intros best.
  - cbn. intros H. apply Ok_inj in H. injection H as <-.
    split; [intros j Hj; lia|]. split; [reflexivity|].
    split; [intros i Hi; lia | left; reflexivity].
  - rewrite range_S, for_loop_app.
    destruct (for_loop train (range k) NegInf) as [t1 [[b1 [|j]]|e]] eqn:E;
      try discriminate.
    destruct (IH b1 eq_refl) as (IHret & IHnan & IHmax & IHfirst).
    cbn [outcome snd]. rewrite for_loop_cons.
    destruct (train (Z.of_nat k)) as [m|e] eqn:Ek;
      [|rewrite (iteration_raises _ _ _ Ek); discriminate].
    rewrite (iteration_returns _ b1 m Ek). cbv zeta.
    destruct ((20 <? Z.of_nat k) && fle (episode_reward_mean m) (Fin 0));
      [discriminate|].
    cbn [for_loop ret outcome snd]. intros H.
    apply Ok_inj in H. injection H as <-.
    assert (Hk : avg_reward_at train (Z.of_nat k) = episode_reward_mean m)
      by (apply avg_reward_at_returns; exact Ek).
    rewrite <- Hk. unfold exceeds.
    split.
    { intros j Hj. destruct (Nat.eq_dec j k) as [->|Hne].
      - exists m. exact Ek.
      - apply IHret. lia. }
    destruct (fgt (avg_reward_at train (Z.of_nat k)) b1) eqn:X.
    + split; [exact (proj1 (fgt_not_nan _ _ X))|]. split.
      * intros i Hi. destruct (Nat.eq_dec i k) as [->|Hne];
          [apply fgt_irrefl|].
        destruct (fgt (avg_reward_at train (Z.of_nat i))
                    (avg_reward_at train (Z.of_nat k))) eqn:Y;
          [|reflexivity].
        rewrite <- (IHmax i) by lia. symmetry.
        exact (fgt_trans _ _ _ Y X).
      * right. exists k. split; [lia|]. split; [reflexivity|].
        intros i Hi.
        destruct (is_nan (avg_reward_at train (Z.of_nat i))) eqn:N;
          [left; reflexivity | right].
        exact (fgt_above _ _ _ X (IHmax i Hi) N).
    + split; [exact IHnan|]. split.
      * intros i Hi. destruct (Nat.eq_dec i k) as [->|Hne];
          [exact X | apply IHmax; lia].
      * destruct IHfirst as [->|(j & Hj & Hb & Hfirst)];
          [left; reflexivity | right].
        exists j. split; [lia|]. split; assumption.
Qed.

(** At a reached iteration, a reward exceeds [best_reward] exactly when
    it is above minus infinity and above every mean seen so far that is
    a number. *)
Lemma exceeds_best_iff (k : nat) (best x : pyfloat) :
  outcome (for_loop train (range k) NegInf) = Ok (best, Exhausted) ->
  exceeds x best = true <->
  fgt x NegInf = true /\
  forall j, (j < k)%nat ->
    is_nan (avg_reward_at train (Z.of_nat j)) = true \/
    fgt x (avg_reward_at train (Z.of_nat j)) = true.
Proof.
  intros H. destruct (best_invariant k best H) as (_ & Hnan & Hmax & Hfirst).
  unfold exceeds. split.
  - intros X. split; [exact (fgt_NegInf _ _ X)|].
    intros j Hj.
    destruct (is_nan (avg_reward_at train (Z.of_nat j))) eqn:N;
      [left; reflexivity | right].
    exact (fgt_above _ _ _ X (Hmax j Hj) N).
  - intros [Hinf Hall].
    destruct Hfirst as [->|(j & Hj & -> & _)]; [exact Hinf|].
    destruct (Hall j Hj) as [N|X]; [congruence | exact X].
Qed.

(** At a reached iteration whose [algo.train()] returns, the checkpoint is
    written exactly when the mean reward exceeds [best_reward]. *)
Lemma saved_iff_exceeds (k : nat) (m : metrics) (best : pyfloat) :
  (k < 100)%nat ->
  outcome (for_loop train (range k) NegInf) = Ok (best, Exhausted) ->
  train (Z.of_nat k) = Ok m ->
  In (AlgoSave (BestAt (Z.of_nat k))) (trace (training_loop train)) <->
  exceeds (episode_reward_mean m) best = true.
Proof.
  intros Hk Hreach Hm. unfold training_loop.
  replace 100%nat with (k + S (99 - k))%nat by lia.
  rewrite range_split, for_loop_app.
  pose proof (for_loop_saves (range k) NegInf (Z.of_nat k)) as Hpre.
  destruct (for_loop train (range k) NegInf) as [t1 r1].
  unfold outcome in Hreach. cbn [snd] in Hreach. subst r1.
  unfold trace in Hpre |- *. cbn [fst] in Hpre |- *.
  rewrite for_loop_cons.
  pose proof (iteration_save (Z.of_nat k) (Z.of_nat k) best) as Hit.
  pose proof (fun b => for_loop_saves (map Z.of_nat (seq (S k) (99 - k))) b
                         (Z.of_nat k)) as Hpost.
  unfold trace in Hit, Hpost.
  assert (Hmine : In (AlgoSave (BestAt (Z.of_nat k)))
                     (fst (iteration train (Z.of_nat k) best)) <->
                  exceeds (episode_reward_mean m) best = true).
  { rewrite Hit. split.
    - intros [_ (m' & Hm' & Hx)]. congruence.
    - intros Hx. split; [reflexivity|]. exists m. split; assumption. }
  clear Hit.
  destruct (iteration train (Z.of_nat k) best) as [t [[best' [|]]|e]];
    cbn [fst] in *; rewrite !in_app_iff; rewrite <- Hmine; split;
    try tauto.
  all: intros [H|H]; try exact H.
  all: try (apply Hpre, range_before in H; lia).
  all: destruct H as [H|H]; try exact H.
  all: apply Hpost, range_after in H; lia.
Qed.

(** C5 (as the code has it). At a reached iteration whose
    [algo.train()] returns, the loop writes the best checkpoint if and
    only if the iteration's mean reward is greater than minus infinity
    (so neither NaN nor minus infinity) and strictly greater than every
    earlier mean reward that is a number, an earlier NaN mean being
    skipped; when no mean up to this iteration is NaN and this one is not
    minus infinity, that is: if and only if it is strictly greater than
    the mean reward of every earlier iteration. A tie with an earlier
    iteration writes nothing; and [best_reward] becomes the new mean
    exactly when the checkpoint is written, staying as it was
    otherwise. *)
Theorem best_checkpoint_iff (k : nat) (m : metrics) :
  (k < 100)%nat ->
  reaches train k ->
  train (Z.of_nat k) = Ok m ->
  let saved :=
    In (AlgoSave (BestAt (Z.of_nat k))) (trace (training_loop train)) in
  let avg := fun i : nat => avg_reward_at train (Z.of_nat i) in
  (saved <->
   fgt (avg k) NegInf = true /\
   forall j, (j < k)%nat -> is_nan (avg j) = true \/ fgt (avg k) (avg j) = true)
  /\
  ((forall j, (j <= k)%nat -> is_nan (avg j) = false) ->
   avg k <> NegInf ->
   (saved <-> forall j, (j < k)%nat -> fgt (avg k) (avg j) = true))
  /\
  (forall j, (j < k)%nat -> feq (avg j) (avg k) = true -> ~ saved)
  /\
  exists best best' signal,
    outcome (for_loop train (range k) NegInf) = Ok (best, Exhausted) /\
    outcome (iteration train (Z.of_nat k) best) = Ok (best', signal) /\
    (saved -> best' = avg k) /\
    (~ saved -> best' = best).
Proof.
  intros Hk [best Hreach] Hm saved avg.
  pose proof (saved_iff_exceeds k m best Hk Hreach Hm) as Hsaved.
  fold saved in Hsaved.
  assert (Havg : avg k = episode_reward_mean m)
    by (apply avg_reward_at_returns; exact Hm).
  rewrite <- Havg in Hsaved.
  pose proof (exceeds_best_iff k best (avg k) Hreach) as Hbest.
  assert (Hiff : saved <->
            fgt (avg k) NegInf = true /\
            forall j, (j < k)%nat ->
              is_nan (avg j) = true \/ fgt (avg k) (avg j) = true)
    by (rewrite Hsaved; exact Hbest).
  split; [exact Hiff|]. split; [|split].
  - intros Hnum Hinf. rewrite Hiff. split.
    + intros [_ Hall] j Hj. destruct (Hall j Hj) as [N|X]; [|exact X].
      rewrite Hnum in N by lia. discriminate.
    + intros Hall. split.
      * apply fgt_NegInf_iff.
        specialize (Hnum k (le_n _)).
        destruct (avg k) as [| | |q]; [discriminate | congruence | |].
        -- left. reflexivity.
        -- right. exists q. reflexivity.
      * intros j Hj. right. exact (Hall j Hj).
  - intros j Hj Htie Hs. apply feq_not_gt in Htie. destruct Htie as [Hgt Hn].
    destruct (proj2 (proj1 Hiff Hs) j Hj) as [N|X]; congruence.
  - exists best. rewrite (iteration_returns _ best m Hm). cbv zeta.
    rewrite <- Havg.
    eexists. eexists. split; [exact Hreach|].
    split; [reflexivity|]. split.
    + intros Hs. now rewrite (proj1 Hsaved Hs).
    + intros Hs. destruct (exceeds (avg k) best) eqn:X; [|reflexivity].
      exfalso. exact (Hs (proj2 Hsaved eq_refl)).
Qed.


(** The [finally] block, in closed form. *)
Lemma finalize_unfold (x : exporter) :
  finalize x =
  ([AlgoSave Final; Print MsgFinalSaved]
   ++ trace (export_model x)
   ++ match outcome (export_model x) with
      | Ok _ => [Print MsgCompleted]
      | Raise e =>
          if is_Exception e
          then [Print (MsgExportFailed e); Print MsgCompleted] else []
      end,
   match outcome (export_model x) with
   | Ok _ => Ok tt
   | Raise e => if is_Exception e then Ok tt else Raise e
   end).
Proof.
  unfold finalize, trace, outcome.
  destruct (export_model x) as [t [[]|e]]; cbn.
  - reflexivity.
  - destruct (is_Exception e); cbn.
    + rewrite <- app_assoc. reflexivity.
    + rewrite app_nil_r. reflexivity.
Qed.

(** The whole driver, in closed form: set-up, the loop, the interrupt
    notice if the loop was interrupted, the [finally] block. *)
Lemma main_unfold (x : exporter) :
  main train x =
  ([Print MsgInitializing; AlgoBuild; MakeDirs]
   ++ trace (training_loop train)
   ++ match outcome (training_loop train) with
      | Raise KeyboardInterrupt => [Print MsgInterrupted]
      | _ => []
      end
   ++ trace (finalize x),
   match outcome (finalize x) with
   | Raise e => Raise e
   | Ok _ =>
       match outcome (training_loop train) with
       | Ok _ | Raise KeyboardInterrupt => Ok tt
       | Raise e => Raise e
       end
   end).
Proof.
  unfold main, trace, outcome.
  destruct (training_loop train) as [t [r|e]];
    destruct (finalize x) as [tf rf]; [|destruct e]; cbn;
    rewrite ?app_nil_r; try reflexivity.
  rewrite <- app_assoc. reflexivity.
Qed.

Lemma main_trace (x : exporter) :
  trace (main train x) =
  [Print MsgInitializing; AlgoBuild; MakeDirs]
  ++ trace (training_loop train)
  ++ match outcome (training_loop train) with
     | Raise KeyboardInterrupt => [Print MsgInterrupted]
     | _ => []
     end
  ++ [AlgoSave Final; Print MsgFinalSaved]
  ++ trace (export_model x)
  ++ match outcome (export_model x) with
     | Ok _ => [Print MsgCompleted]
     | Raise e =>
         if is_Exception e
         then [Print (MsgExportFailed e); Print MsgCompleted] else []
     end.
Proof. rewrite main_unfold, finalize_unfold. reflexivity. Qed.

Lemma main_outcome (x : exporter) :
  outcome (main train x) =
  match outcome (export_model x) with
  | Raise e =>
      if is_Exception e
      then match outcome (training_loop train) with
           | Ok _ | Raise KeyboardInterrupt => Ok tt
           | Raise e' => Raise e'
           end
      else Raise e
  | Ok _ =>
      match outcome (training_loop train) with
      | Ok _ | Raise KeyboardInterrupt => Ok tt
      | Raise e' => Raise e'
      end
  end.
Proof.
  rewrite main_unfold, finalize_unfold. unfold outcome at 1 2. cbn [snd].
  destruct (outcome (export_model x)) as [u|e];
    [|destruct (is_Exception e)]; reflexivity.
Qed.

Lemma export_model_saves (x : exporter) (s : save_site) :
  ~ In (AlgoSave s) (trace (export_model x)).
Proof.
  unfold export_model, trace.
  destruct (is_algorithm x); [|intros []].
  destruct (get_policy x) as [[|]|e]; cbn; try (intros []).
  destruct (torch_save x) as [[]|e]; cbn; [|intros []].
  intros [H|[H|[]]]; discriminate.
Qed.

(** Checkpoints in the driver's trace: the final one, and those the loop
    wrote. *)
Lemma main_saves (x : exporter) (s : save_site) :
  In (AlgoSave s) (trace (main train x)) <->
  s = Final \/ In (AlgoSave s) (trace (training_loop train)).
Proof.
  rewrite main_trace.
  pose proof (export_model_saves x s) as Hx.
  assert (Hint : ~ In (AlgoSave s)
                     match outcome (training_loop train) with
                     | Raise KeyboardInterrupt => [Print MsgInterrupted]
                     | _ => []
                     end).
  { destruct (outcome (training_loop train)) as [r|[| |c]]; cbn;
      intuition discriminate. }
  assert (Hend : ~ In (AlgoSave s)
                     match outcome (export_model x) with
                     | Ok _ => [Print MsgCompleted]
                     | Raise e =>
                         if is_Exception e
                         then [Print (MsgExportFailed e); Print MsgCompleted]
                         else []
                     end).
  { destruct (outcome (export_model x)) as [u|e];
      [|destruct (is_Exception e)]; cbn; intuition discriminate. }
  rewrite !in_app_iff. cbn [In]. split.
  - intros H. intuition (try discriminate; try congruence).
  - intros [->|H]; [|tauto].
    right. right. right. left. left. reflexivity.
Qed.

(** C10 (as the code has it). In a run whose first [algo.train()]
    returns, the first iteration writes the best checkpoint exactly when
    its mean reward is greater than the initial minus infinity, that is
    when it is neither NaN nor minus infinity; so it does whenever the
    mean is a finite number, as is the default 0 taken when the
    dictionary lacks the metric. *)
Theorem first_iteration_saves (x : exporter) (m : metrics) :
  train 0 = Ok m ->
  (In (AlgoSave (BestAt 0)) (trace (main train x)) <->
   episode_reward_mean m <> NaN /\ episode_reward_mean m <> NegInf) /\
  (In (AlgoSave (BestAt 0)) (trace (training_loop train)) <->
   exceeds (episode_reward_mean m) NegInf = true) /\
  ((exists q, episode_reward_mean m = Fin q) ->
   In (AlgoSave (BestAt 0)) (trace (main train x))) /\
  episode_reward_mean [] = Fin 0.
Proof.
  intros Hm.
  assert (Hloop : In (AlgoSave (BestAt 0)) (trace (training_loop train)) <->
                  exceeds (episode_reward_mean m) NegInf = true)
    by (apply (saved_iff_exceeds 0 m NegInf); [lia | reflexivity | exact Hm]).
  assert (Hmain : In (AlgoSave (BestAt 0)) (trace (main train x)) <->
                  exceeds (episode_reward_mean m) NegInf = true).
  { rewrite main_saves, Hloop. split; [|tauto].
    intros [H|H]; [discriminate | exact H]. }
  split; [|split; [exact Hloop|split; [|reflexivity]]].
  - rewrite Hmain. unfold exceeds.
    destruct (episode_reward_mean m) as [| | |q]; cbn; split;
      try discriminate; try (intros [H1 H2]; congruence);
      intros _; split; discriminate.
  - intros [q Hq]. apply Hmain. rewrite Hq. reflexivity.
Qed.

(** C8 (as the code has it). The [finally] block always writes the final
    checkpoint; the checkpoints of a run are that one and those of the
    loop, whatever the export does; and when the loop ends by exhaustion,
    by [break] or by [KeyboardInterrupt], an export that fails with an
    exception deriving from [Exception], the ones [except Exception]
    catches, is reported and the script still completes normally. *)
Theorem final_checkpoint_always (x : exporter) :
  In (AlgoSave Final) (trace (main train x)) /\
  (forall x' s,
     In (AlgoSave s) (trace (main train x)) <->
     In (AlgoSave s) (trace (main train x'))) /\
  (((exists r, outcome (training_loop train) = Ok r) \/
    outcome (training_loop train) = Raise KeyboardInterrupt) ->
   (forall e, outcome (export_model x) = Raise e -> is_Exception e = true) ->
   outcome (main train x) = Ok tt /\
   In (Print MsgCompleted) (trace (main train x)) /\
   (forall e, outcome (export_model x) = Raise e ->
              In (Print (MsgExportFailed e)) (trace (main train x)))).
Proof.
  split; [apply main_saves; left; reflexivity|].
  split; [intros x' s; rewrite !main_saves; reflexivity|].
  intros Hloop Hexp.
  rewrite main_outcome, main_trace. split; [|split].
  - destruct (outcome (export_model x)) as [u|e] eqn:E;
      [|rewrite (Hexp e eq_refl)];
      destruct Hloop as [[r ->] | ->]; reflexivity.
  - rewrite !in_app_iff. do 5 right.
    destruct (outcome (export_model x)) as [u|e] eqn:E.
    + left. reflexivity.
    + rewrite (Hexp e eq_refl). right. left. reflexivity.
  - intros e He. rewrite !in_app_iff. do 5 right.
    rewrite He, (Hexp e He). left. reflexivity.
Qed.

End DriverFacts.

(** Rewards [0, -1, -2, ...]: iteration 1 is reached and does not beat
    iteration 0. *)
Lemma best_checkpoint_iff_witness :
  (1 < 100)%nat /\
  reaches Samples.train_decreasing 1 /\
  Samples.train_decreasing 1
    = Ok [("episode_reward_mean"%string, Fin (inject_Z (-1)))] /\
  (In (AlgoSave (BestAt 1)) (trace (training_loop Samples.train_decreasing))
   <-> fgt (avg_reward_at Samples.train_decreasing 1) NegInf = true /\
       forall j, (j < 1)%nat ->
         is_nan (avg_reward_at Samples.train_decreasing (Z.of_nat j)) = true \/
         fgt (avg_reward_at Samples.train_decreasing 1)
             (avg_reward_at Samples.train_decreasing (Z.of_nat j)) = true).
Proof.
  assert (Hk : (1 < 100)%nat) by lia.
  assert (Hr : reaches Samples.train_decreasing 1)
    by (eexists; reflexivity).
  split; [exact Hk|]. split; [exact Hr|]. split; [reflexivity|].
  exact (proj1 (best_checkpoint_iff Samples.train_decreasing 1 _
                  Hk Hr eq_refl)).
Defined.

(** C5 (as stated) fails on means that are not finite numbers. With the
    means [nan, 5] the checkpoint is written at iteration 1 although
    [5 > nan] is false, so that iteration does not strictly exceed every
    earlier one; with a first mean of minus infinity nothing is written at
    iteration 0, which has no earlier iteration to exceed. *)
Lemma best_checkpoint_nan_neginf :
  In (AlgoSave (BestAt 1)) (trace (training_loop Samples.train_nan_then_5)) /\
  fgt (avg_reward_at Samples.train_nan_then_5 1)
      (avg_reward_at Samples.train_nan_then_5 0) = false /\
  ~ In (AlgoSave (BestAt 0)) (trace (training_loop Samples.train_neginf)).
Proof.
  split; [|split].
  - vm_compute. do 2 right. left. reflexivity.
  - reflexivity.
  - vm_compute. intros H.
    repeat (destruct H as [H|H]; [discriminate H|]). exact H.
Qed.


(** A trainer that reports no metric: the default 0 is kept as the first
    best reward. *)
Lemma first_iteration_saves_witness :
  Samples.train_silent 0 = Ok [] /\
  In (AlgoSave (BestAt 0))
     (trace (main Samples.train_silent Samples.export_working)).
Proof.
  split; [reflexivity|].
  apply (proj1 (first_iteration_saves Samples.train_silent
                  Samples.export_working [] eq_refl)).
  split; discriminate.
Defined.

(** C10 (as stated) fails when the first mean reward is not a number:
    [nan > -inf] is false, and the first iteration writes no checkpoint
    (the first one of that run is written at iteration 1). *)
Lemma first_iteration_nan_not_saved :
  Samples.train_nan_then_5 0 = Ok [("episode_reward_mean"%string, NaN)] /\
  ~ In (AlgoSave (BestAt 0))
       (trace (main Samples.train_nan_then_5 Samples.export_working)) /\
  In (AlgoSave (BestAt 1))
     (trace (main Samples.train_nan_then_5 Samples.export_working)).
Proof.
  split; [reflexivity|]. split.
  - vm_compute. intros H.
    repeat (destruct H as [H|H]; [discriminate H|]). exact H.
  - vm_compute. do 5 right. left. reflexivity.
Qed.

(** Interrupted in the fourth iteration, with [torch.save] failing: the
    script still completes, having reported the failed export. *)
Lemma final_checkpoint_always_witness :
  outcome (training_loop Samples.train_interrupted) = Raise KeyboardInterrupt /\
  (forall e, outcome (export_model Samples.export_failing) = Raise e ->
             is_Exception e = true) /\
  outcome (main Samples.train_interrupted Samples.export_failing) = Ok tt /\
  In (Print MsgCompleted)
     (trace (main Samples.train_interrupted Samples.export_failing)) /\
  In (Print (MsgExportFailed (Error "RuntimeError")))
     (trace (main Samples.train_interrupted Samples.export_failing)).
Proof.
  assert (Hloop : outcome (training_loop Samples.train_interrupted)
                  = Raise KeyboardInterrupt) by reflexivity.
  assert (Hexp : forall e,
            outcome (export_model Samples.export_failing) = Raise e ->
            is_Exception e = true).
  { intros e H.
    change (@Raise unit (Error "RuntimeError") = Raise e) in H.
    injection H as <-. reflexivity. }
  split; [exact Hloop|]. split; [exact Hexp|].
  destruct (final_checkpoint_always Samples.train_interrupted
              Samples.export_failing) as (_ & _ & H).
  destruct (H (or_intror Hloop) Hexp) as (Hout & Hdone & Hrep).
  split; [exact Hout|]. split; [exact Hdone|].
  exact (Hrep _ eq_refl).
Defined.

(** C8 (as stated) fails for an exception that is not an [Exception].
    A [KeyboardInterrupt] raised inside [torch.save] is not caught by
    [except Exception]: no export failure is reported, the closing line
    is not printed, and the script ends with the interrupt, the final
    checkpoint having been written before. *)
Lemma export_keyboard_interrupt_uncaught :
  outcome (export_model Samples.export_interrupted) = Raise KeyboardInterrupt /\
  outcome (main Samples.train_interrupted Samples.export_interrupted)
    = Raise KeyboardInterrupt /\
  ~ In (Print (MsgExportFailed KeyboardInterrupt))
       (trace (main Samples.train_interrupted Samples.export_interrupted)) /\
  ~ In (Print MsgCompleted)
       (trace (main Samples.train_interrupted Samples.export_interrupted)) /\
  In (AlgoSave Final)
     (trace (main Samples.train_interrupted Samples.export_interrupted)).
Proof.
  split; [reflexivity|]. split; [reflexivity|]. split; [|split].
  - vm_compute. intros H.
    repeat (destruct H as [H|H]; [discriminate H|]). exact H.
  - vm_compute. intros H.
    repeat (destruct H as [H|H]; [discriminate H|]). exact H.
  - apply main_saves. left. reflexivity.
Qed.

(* ===================================================================== *)
(** ** Facts about the fitting block                                     *)
(* ===================================================================== *)

Import Fitting.

Section FitFacts.

Context {lib : FitLib}.

Variables x_data y0_mean y1_mean x_fine : Vec.

(** The fitting block after a failure inside the [try]: whichever of the
    two fits or two evaluations raised the [Exception], the handler prints
    it and then stands or falls with the splines. *)
Lemma try_failure_falls_back (e : exn) :
  polyfit x_data y0_mean 4 = Raise e \/
  (exists p0, polyfit x_data y0_mean 4 = Ok p0 /\
              polyval p0 x_fine = Raise e) \/
  (exists p0 v0, polyfit x_data y0_mean 4 = Ok p0 /\
                 polyval p0 x_fine = Ok v0 /\
                 polyfit x_data y1_mean 4 = Raise e) \/
  (exists p0 v0 p1, polyfit x_data y0_mean 4 = Ok p0 /\
                    polyval p0 x_fine = Ok v0 /\
                    polyfit x_data y1_mean 4 = Ok p1 /\
                    polyval p1 x_fine = Raise e) ->
  is_Exception e = true ->
  fit x_data y0_mean y1_mean x_fine =
  ([Print (MsgPolyFailed e)],
   match UnivariateSpline x_data y0_mean 100 with
   | Raise e' => Raise e'
   | Ok spl0 =>
   match UnivariateSpline x_data y1_mean 100 with
   | Raise e' => Raise e'
   | Ok spl1 =>
   match spline_call spl0 x_fine with
   | Raise e' => Raise e'
   | Ok y0_fit =>
   match spline_call spl1 x_fine with
   | Raise e' => Raise e'
   | Ok y1_fit =>
       Ok [("method"%string, VStr "Spline Interpolation");
           ("y0_fit"%string, VArr y0_fit);
           ("y1_fit"%string, VArr y1_fit);
           ("success"%string, VBool false)]
   end end end end).
Proof.
  intros Hpoly He.
  assert (Hhandler :
    (let (t', r) :=
       (print (MsgPolyFailed e) ;;
        spl0 <- lift (UnivariateSpline x_data y0_mean 100) ;;
        spl1 <- lift (UnivariateSpline x_data y1_mean 100) ;;
        y0_fit <- lift (spline_call spl0 x_fine) ;;
        y1_fit <- lift (spline_call spl1 x_fine) ;;
        ret (dict_set
               (dict_set
                  (dict_set
                     (dict_set [] "method" (VStr "Spline Interpolation"))
                     "y0_fit" (VArr y0_fit))
                  "y1_fit" (VArr y1_fit))
               "success" (VBool false)))%prog
     in ([] ++ t', r)) =
    ([Print (MsgPolyFailed e)],
     match UnivariateSpline x_data y0_mean 100 with
     | Raise e' => Raise e'
     | Ok spl0 =>
     match UnivariateSpline x_data y1_mean 100 with
     | Raise e' => Raise e'
     | Ok spl1 =>
     match spline_call spl0 x_fine with
     | Raise e' => Raise e'
     | Ok y0_fit =>
     match spline_call spl1 x_fine with
     | Raise e' => Raise e'
     | Ok y1_fit =>
         Ok [("method"%string, VStr "Spline Interpolation");
             ("y0_fit"%string, VArr y0_fit);
             ("y1_fit"%string, VArr y1_fit);
             ("success"%string, VBool false)]
     end end end end)).
  { cbn [print tell bind app].
    destruct (UnivariateSpline x_data y0_mean 100) as [s0|e0];
      [|reflexivity].
    destruct (UnivariateSpline x_data y1_mean 100) as [s1|e1];
      [|reflexivity].
    cbn [lift bind app].
    destruct (spline_call s0 x_fine) as [w0|e0]; [|reflexivity].
    destruct (spline_call s1 x_fine) as [w1|e1]; reflexivity. }
  unfold fit.
  destruct Hpoly as [H0 | [(p0 & H0 & Hv0) | [(p0 & v0 & H0 & Hv0 & H1)
                    | (p0 & v0 & p1 & H0 & Hv0 & H1 & Hv1)]]].
  - rewrite H0. cbn [lift bind try_except]. rewrite He. exact Hhandler.
  - rewrite H0. cbn [lift bind]. rewrite Hv0.
    cbn [lift bind try_except app]. rewrite He. exact Hhandler.
  - rewrite H0. cbn [lift bind]. rewrite Hv0. cbn [lift bind].
    rewrite H1. cbn [lift bind try_except app]. rewrite He. exact Hhandler.
  - rewrite H0. cbn [lift bind]. rewrite Hv0. cbn [lift bind].
    rewrite H1. cbn [lift bind]. rewrite Hv1.
    cbn [lift bind try_except app]. rewrite He. exact Hhandler.
Qed.

(** C9 (as the code has it). When a polynomial fit or its evaluation, of
    either group, raises an [Exception], the failure is printed, nothing
    else is, and the script turns to [UnivariateSpline]: it builds the
    spline of group 0, then that of group 1, then evaluates them in that
    order. If all four calls return, the curves of both groups are the
    splines', the recorded method is "Spline Interpolation" and the
    success flag is [False]; the first of the four calls that raises ends
    the script with its exception, the fallback having no handler of its
    own. *)
Theorem fit_falls_back_to_spline (e : exn) :
  polyfit x_data y0_mean 4 = Raise e \/
  (exists p0, polyfit x_data y0_mean 4 = Ok p0 /\
              polyval p0 x_fine = Raise e) \/
  (exists p0 v0, polyfit x_data y0_mean 4 = Ok p0 /\
                 polyval p0 x_fine = Ok v0 /\
                 polyfit x_data y1_mean 4 = Raise e) \/
  (exists p0 v0 p1, polyfit x_data y0_mean 4 = Ok p0 /\
                    polyval p0 x_fine = Ok v0 /\
                    polyfit x_data y1_mean 4 = Ok p1 /\
                    polyval p1 x_fine = Raise e) ->
  is_Exception e = true ->
  trace (fit x_data y0_mean y1_mean x_fine) = [Print (MsgPolyFailed e)] /\
  (forall spl0 spl1 y0_fit y1_fit,
     UnivariateSpline x_data y0_mean 100 = Ok spl0 ->
     UnivariateSpline x_data y1_mean 100 = Ok spl1 ->
     spline_call spl0 x_fine = Ok y0_fit ->
     spline_call spl1 x_fine = Ok y1_fit ->
     outcome (fit x_data y0_mean y1_mean x_fine) =
     Ok [("method"%string, VStr "Spline Interpolation");
         ("y0_fit"%string, VArr y0_fit);
         ("y1_fit"%string, VArr y1_fit);
         ("success"%string, VBool false)]) /\
  (forall e',
     UnivariateSpline x_data y0_mean 100 = Raise e' ->
     outcome (fit x_data y0_mean y1_mean x_fine) = Raise e') /\
  (forall spl0 e',
     UnivariateSpline x_data y0_mean 100 = Ok spl0 ->
     UnivariateSpline x_data y1_mean 100 = Raise e' ->
     outcome (fit x_data y0_mean y1_mean x_fine) = Raise e') /\
  (forall spl0 spl1 e',
     UnivariateSpline x_data y0_mean 100 = Ok spl0 ->
     UnivariateSpline x_data y1_mean 100 = Ok spl1 ->
     spline_call spl0 x_fine = Raise e' ->
     outcome (fit x_data y0_mean y1_mean x_fine) = Raise e') /\
  (forall spl0 spl1 y0_fit e',
     UnivariateSpline x_data y0_mean 100 = Ok spl0 ->
     UnivariateSpline x_data y1_mean 100 = Ok spl1 ->
     spline_call spl0 x_fine = Ok y0_fit ->
     spline_call spl1 x_fine = Raise e' ->
     outcome (fit x_data y0_mean y1_mean x_fine) = Raise e').
Proof.
  intros Hpoly He. rewrite (try_failure_falls_back e Hpoly He).
  unfold trace, outcome. cbn [fst snd]. split; [reflexivity|].
  split; [|split; [|split; [|split]]].
  - intros spl0 spl1 y0_fit y1_fit -> -> -> ->. reflexivity.
  - intros e' ->. reflexivity.
  - intros spl0 e' -> ->. reflexivity.
  - intros spl0 spl1 e' -> -> ->. reflexivity.
  - intros spl0 spl1 y0_fit e' -> -> -> ->. reflexivity.
Qed.

End FitFacts.

(** A library whose polynomial fit fails and whose spline works. *)
Lemma fit_falls_back_to_spline_witness :
  polyfit (FitLib := Samples.lib_poly_fails) [1; 2]%Q [5; 6]%Q 4
    = Raise (Error "LinAlgError") /\
  is_Exception (Error "LinAlgError") = true /\
  fit (lib := Samples.lib_poly_fails) [1; 2]%Q [5; 6]%Q [7; 8]%Q [1; 2]%Q =
  ([Print (MsgPolyFailed (Error "LinAlgError"))],
   Ok [("method"%string, VStr "Spline Interpolation");
       ("y0_fit"%string, VArr (lib := Samples.lib_poly_fails) [5; 5]%Q);
       ("y1_fit"%string, VArr (lib := Samples.lib_poly_fails) [7; 7]%Q);
       ("success"%string, VBool false)]).
Proof.
  split; [reflexivity|]. split; [reflexivity|].
  destruct (fit_falls_back_to_spline (lib := Samples.lib_poly_fails)
              [1; 2]%Q [5; 6]%Q [7; 8]%Q [1; 2]%Q
              (Error "LinAlgError") (or_introl eq_refl) eq_refl)
    as (Ht & H & _).
  specialize (H 5%Q 7%Q [5; 5]%Q [7; 7]%Q eq_refl eq_refl eq_refl eq_refl).
  unfold trace in Ht. unfold outcome in H.
  destruct (fit (lib := Samples.lib_poly_fails)
              [1; 2]%Q [5; 6]%Q [7; 8]%Q [1; 2]%Q) as [t r].
  cbn [fst snd] in Ht, H. now rewrite Ht, H.
Defined.

(** C9 (as stated) fails. With a library whose polynomial fit and spline
    both reject the data, the polynomial failure is caught but the
    spline's is not: the script ends with the spline's exception and no
    fitted curve at all. *)
Lemma fit_spline_failure_aborts :
  polyfit (FitLib := Samples.lib_all_fail) [1; 2]%Q [5; 6]%Q 4
    = Raise (Error "LinAlgError") /\
  fit (lib := Samples.lib_all_fail) [1; 2]%Q [5; 6]%Q [7; 8]%Q [1; 2]%Q
    = ([Print (MsgPolyFailed (Error "LinAlgError"))], Raise ValueError) /\
  outcome (fit (lib := Samples.lib_all_fail)
             [1; 2]%Q [5; 6]%Q [7; 8]%Q [1; 2]%Q)
    <> Ok [("method"%string, VStr "Spline Interpolation");
           ("y0_fit"%string, VArr (lib := Samples.lib_all_fail) [5; 5]%Q);
           ("y1_fit"%string, VArr (lib := Samples.lib_all_fail) [7; 7]%Q);
           ("success"%string, VBool false)].
Proof.
  split; [reflexivity|]. split; [reflexivity|]. discriminate.
Qed.

(* ===================================================================== *)
(** ** Further facts about the loader and [OfflineEnv]                   *)
(* ===================================================================== *)

Section EnvMore.

Context {fl : Float}.

(** Running [step] repeatedly from an in-range cursor: every call
    returns; cursor, episode length and data set afterwards. *)
Lemma steps_run {Action} (acts : list Action) (env : OfflineEnv) :
  aligned (_dataset env) ->
  0 <= _index env < Z.of_nat (len (states (_dataset env))) ->
  exists env',
    steps env acts = Ok env' /\
    _index env' = (_index env + Z.of_nat (List.length acts))
                  mod Z.of_nat (len (states (_dataset env))) /\
    _current_episode_length env'
      = _current_episode_length env + Z.of_nat (List.length acts) /\
    _dataset env' = _dataset env.
Proof.
  revert env. induction acts as [|a acts IH]; intros env Hal Hi.
  - exists env. cbn [steps List.length Z.of_nat].
    rewrite !Z.add_0_r, Z.mod_small by lia. repeat split.
  - destruct (step_in_range env a Hal Hi) as (o & r & t & _ & _ & _ & Hstep).
    cbn [steps]. rewrite Hstep.
    match goal with
    | |- context [steps ?e acts] => specialize (IH e)
    end.
    cbn [_dataset _index _current_episode_length] in IH.
    destruct IH as (env' & Hsteps & Hidx & Hlen & Hds);
      [exact Hal | apply Z.mod_pos_bound; lia |].
    exists env'. split; [exact Hsteps|].
    split; [|split; [|exact Hds]].
    + rewrite Hidx, Zplus_mod_idemp_l. f_equal. cbn [List.length]. lia.
    + rewrite Hlen. cbn [List.length]. lia.
Qed.

(** X1. From an in-range cursor on aligned arrays, [step] returns the
    observation, the reward and the terminal flag of the row under the
    cursor ([terminated] is whether the flag is nonzero), [truncated] is
    [False], the reported episode reward is the running total plus this
    reward; the successor state keeps the data set, stores that total,
    counts one more step and has the cursor one row on, wrapping at the
    end of the table. *)
Theorem step_replays_cursor_row {Action} (env : OfflineEnv) (a : Action) :
  aligned (_dataset env) ->
  0 <= _index env < Z.of_nat (len (states (_dataset env))) ->
  exists o r t,
    nth_error (rows (states (_dataset env))) (Z.to_nat (_index env)) = Some o /\
    flag (rewards (_dataset env)) (Z.to_nat (_index env)) = Some r /\
    flag (terminals (_dataset env)) (Z.to_nat (_index env)) = Some t /\
    step env a =
    Ok ({| obs := o; reward := r; terminated := negb (is_zero t);
           truncated := false;
           info_episode_reward := fadd (_current_episode_reward env) r |},
        {| _dataset := _dataset env;
           _index := (_index env + 1) mod Z.of_nat (len (states (_dataset env)));
           _current_episode_reward := fadd (_current_episode_reward env) r;
           _current_episode_length := _current_episode_length env + 1 |}).
Proof. intros Hal Hi. exact (step_in_range env a Hal Hi). Qed.

Lemma getitem_nil {A} (i : Z) : getitem (@nil A) i = Raise IndexError.
Proof.
  unfold getitem. cbn [List.length Z.of_nat].
  destruct (Z.ltb_spec i 0) as [Hneg|Hpos].
  - destruct (Z.leb_spec 0 (i + 0)); [lia | reflexivity].
  - destruct (Z.leb_spec 0 i); [|reflexivity].
    destruct (Z.ltb_spec i 0); [lia | reflexivity].
Qed.

(** X2. Over a table without rows the environment cannot be used:
    [reset] raises [ValueError] (from [np.random.randint(0, 0)]) and
    [step] raises [IndexError], wherever the cursor is and whatever the
    draw and the action are. *)
Theorem empty_table_raises {Action} (env : OfflineEnv) (draw : Z) (a : Action) :
  len (states (_dataset env)) = 0%nat ->
  reset env draw = Raise ValueError /\ step env a = Raise IndexError.
Proof.
  intros Hn. split.
  - unfold reset, randint. rewrite Hn. reflexivity.
  - unfold step. unfold len in Hn. apply length_zero_iff_nil in Hn.
    rewrite Hn, getitem_nil. reflexivity.
Qed.

(** [reset] on a table with rows, in closed form. *)
Lemma reset_returns (env : OfflineEnv) (draw : Z) :
  0 < Z.of_nat (len (states (_dataset env))) ->
  exists o env',
    reset env draw = Ok ((o, tt), env') /\
    0 <= _index env' < Z.of_nat (len (states (_dataset env))) /\
    nth_error (rows (states (_dataset env))) (Z.to_nat (_index env')) = Some o /\
    _current_episode_reward env' = F0 /\
    _current_episode_length env' = 0 /\
    _dataset env' = _dataset env.
Proof.
  intros Hn. unfold reset, randint.
  destruct (Z.leb_spec (Z.of_nat (len (states (_dataset env)))) 0) as [H|_];
    [lia|].
  rewrite Z.sub_0_r, Z.add_0_l. cbn [_dataset _index].
  assert (Hr : 0 <= draw mod Z.of_nat (len (states (_dataset env)))
                  < Z.of_nat (len (states (_dataset env))))
    by (apply Z.mod_pos_bound; exact Hn).
  destruct (getitem_in_range (rows (states (_dataset env))) _ Hr)
    as (o & Hget & Hnth).
  rewrite Hget. eexists. eexists. split; [reflexivity|].
  cbn [_index _current_episode_reward _current_episode_length _dataset].
  repeat split; try assumption; apply Hr.
Qed.

(** X3. On a table with rows, [reset] returns, whatever the draw: the
    cursor is inside the table, the returned observation is the row under
    it, both episode counters are zero and the data set is kept. *)
Theorem reset_in_range (env : OfflineEnv) (draw : Z) :
  0 < Z.of_nat (len (states (_dataset env))) ->
  exists o env',
    reset env draw = Ok ((o, tt), env') /\
    0 <= _index env' < Z.of_nat (len (states (_dataset env))) /\
    nth_error (rows (states (_dataset env))) (Z.to_nat (_index env')) = Some o /\
    _current_episode_reward env' = F0 /\
    _current_episode_length env' = 0 /\
    _dataset env' = _dataset env.
Proof. exact (reset_returns env draw). Qed.

(** X4. The first [step] after a [reset] hands out the observation the
    [reset] has just returned, now with that row's reward: the episode
    total it reports is [0.0] plus that reward, and one step is counted. *)
Theorem reset_then_step_repeats_obs {Action} (env : OfflineEnv) (draw : Z)
    (a : Action) :
  aligned (_dataset env) ->
  0 < Z.of_nat (len (states (_dataset env))) ->
  exists o env' out env'',
    reset env draw = Ok ((o, tt), env') /\
    step env' a = Ok (out, env'') /\
    obs out = o /\
    info_episode_reward out = fadd F0 (reward out) /\
    _current_episode_length env'' = 1.
Proof.
  intros Hal Hn.
  destruct (reset_returns env draw Hn)
    as (o & env' & Hreset & Hi & Hnth & Hrew & Hlen & Hds).
  assert (Hal' : aligned (_dataset env')) by (rewrite Hds; exact Hal).
  assert (Hi' : 0 <= _index env' < Z.of_nat (len (states (_dataset env'))))
    by (rewrite Hds; exact Hi).
  destruct (step_in_range env' a Hal' Hi')
    as (o' & r & t & Ho' & _ & _ & Hstep).
  exists o, env'. eexists. eexists.
  split; [exact Hreset|]. split; [exact Hstep|].
  cbn [obs info_episode_reward reward _current_episode_length].
  rewrite Hds in Ho'. rewrite Hrew, Hlen.
  split; [congruence|]. split; reflexivity.
Qed.

End EnvMore.

Section LoadMore.

Context {fl : Float}.

(** X5. Terminal rows do not end an episode inside the environment: over
    any run of [step] calls from an in-range cursor the episode length
    grows by exactly the number of calls, whatever flags the rows carry,
    and the data set is the one the run started with. *)
Theorem steps_count_episode_length {Action} (acts : list Action)
    (env : OfflineEnv) :
  aligned (_dataset env) ->
  0 <= _index env < Z.of_nat (len (states (_dataset env))) ->
  exists env',
    steps env acts = Ok env' /\
    _current_episode_length env'
      = _current_episode_length env + Z.of_nat (List.length acts) /\
    _dataset env' = _dataset env.
Proof.
  intros Hal Hi.
  destruct (steps_run acts env Hal Hi) as (env' & Hs & _ & Hlen & Hds).
  exists env'. repeat split; assumption.
Qed.

(** The slice [36:37] of a row that has no column 36 is empty. *)
Lemma terminal_slice_missing (r : list F) :
  (List.length r <= 36)%nat -> firstn (37 - 36) (skipn 36 r) = [].
Proof.
  intros H. rewrite skipn_all2 by exact H. reflexivity.
Qed.

Lemma concat_terminal_missing (df : ndarray) :
  rectangular df -> (ncols df <= 36)%nat ->
  concat (rows (iloc_cols 36 37 df)) = [].
Proof.
  intros R W. unfold iloc_cols. cbn [rows].
  unfold rectangular in R. induction (rows df) as [|r l IH].
  - reflexivity.
  - inversion R as [|? ? Hr Hl]; subst.
    cbn [map concat]. rewrite terminal_slice_missing by lia.
    rewrite IH by exact Hl. reflexivity.
Qed.

(** X6. A table that lacks the terminal column (at most 36 columns) is
    not loaded: the sliced terminal array has no column, its sum is the
    empty sum, and with that sum equal to zero the fallback assignment
    to column 0 raises [IndexError], which leaves the script right after
    the loading banner. *)
Theorem load_without_terminal_column (df : ndarray) :
  rectangular df -> (ncols df <= 36)%nat ->
  is_zero (np_sum []) = true ->
  load_dataset (Table df) = ([Print MsgLoading], Raise IndexError).
Proof.
  intros R W Hsum. unfold load_dataset.
  cbn [read_csv lift print tell bind app].
  rewrite (concat_terminal_missing df R W), Hsum.
  unfold setitem_tail_col.
  assert (Hw : ncols (iloc_cols 36 37 df) = 0%nat)
    by (unfold iloc_cols; cbn [ncols]; lia).
  rewrite Hw. reflexivity.
Qed.

(** X7. A rectangular table with the 37 fixed columns and at least one
    row, once loaded, can be replayed without end: from the initial
    environment every [step] returns, and after [N] of them the cursor is
    [N mod n], [n] being the number of rows of the table. *)
Theorem loaded_table_replays {Action} (df : ndarray) (ds : dataset)
    (acts : list Action) :
  rectangular df -> (37 <= ncols df)%nat -> (0 < len df)%nat ->
  outcome (load_dataset (Table df)) = Ok ds ->
  exists env',
    steps (init ds) acts = Ok env' /\
    _index env' = Z.of_nat (List.length acts) mod Z.of_nat (len df) /\
    _dataset env' = ds.
Proof.
  intros R W Hn Hload.
  destruct (load_dataset_aligned df ds R W Hload) as [Hal Hlen].
  destruct (steps_run acts (init ds)) as (env' & Hs & Hidx & _ & Hds).
  - exact Hal.
  - cbn [init _dataset _index]. rewrite Hlen. lia.
  - exists env'. split; [exact Hs|]. split; [|exact Hds].
    rewrite Hidx. cbn [init _dataset _index]. rewrite Hlen. reflexivity.
Qed.

End LoadMore.

Lemma step_replays_cursor_row_witness :
  aligned Samples.dataset2 /\
  0 <= _index (init Samples.dataset2)
     < Z.of_nat (len (states Samples.dataset2)) /\
  exists o r t,
    nth_error (rows (states Samples.dataset2)) 0 = Some o /\
    flag (rewards Samples.dataset2) 0 = Some r /\
    flag (terminals Samples.dataset2) 0 = Some t /\
    exists out env',
      step (init Samples.dataset2) tt = Ok (out, env') /\
      obs out = o /\ reward out = r /\ _index env' = 1.
Proof.
  assert (Hi : 0 <= _index (init Samples.dataset2)
                  < Z.of_nat (len (states Samples.dataset2)))
    by (split; [discriminate | reflexivity]).
  split; [exact dataset2_aligned|]. split; [exact Hi|].
  destruct (step_replays_cursor_row (init Samples.dataset2) tt
              dataset2_aligned Hi) as (o & r & t & Ho & Hr & Ht & Hstep).
  exists o, r, t. repeat (split; [assumption|]).
  eexists. eexists. split; [exact Hstep|]. repeat split.
Defined.

Lemma empty_table_raises_witness :
  len (states (_dataset (init Samples.dataset_empty))) = 0%nat /\
  reset (init Samples.dataset_empty) 5 = Raise ValueError /\
  step (init Samples.dataset_empty) tt = Raise IndexError.
Proof.
  split; [reflexivity|].
  exact (empty_table_raises (init Samples.dataset_empty) 5 tt eq_refl).
Defined.

Lemma reset_in_range_witness :
  0 < Z.of_nat (len (states (_dataset (init Samples.dataset2)))) /\
  exists o env',
    reset (init Samples.dataset2) 7 = Ok ((o, tt), env') /\
    0 <= _index env' < 2.
Proof.
  assert (Hn : 0 < Z.of_nat (len (states (_dataset (init Samples.dataset2)))))
    by reflexivity.
  split; [exact Hn|].
  destruct (reset_in_range (init Samples.dataset2) 7 Hn)
    as (o & env' & Hreset & Hi & _).
  exists o, env'. split; [exact Hreset | exact Hi].
Defined.

Lemma reset_then_step_repeats_obs_witness :
  aligned (_dataset (init Samples.dataset2)) /\
  0 < Z.of_nat (len (states (_dataset (init Samples.dataset2)))) /\
  exists o env' out env'',
    reset (init Samples.dataset2) 7 = Ok ((o, tt), env') /\
    step env' tt = Ok (out, env'') /\
    obs out = o.
Proof.
  assert (Hn : 0 < Z.of_nat (len (states (_dataset (init Samples.dataset2)))))
    by reflexivity.
  split; [exact dataset2_aligned|]. split; [exact Hn|].
  destruct (reset_then_step_repeats_obs (init Samples.dataset2) 7 tt
              dataset2_aligned Hn)
    as (o & env' & out & env'' & Hreset & Hstep & Hobs & _).
  exists o, env', out, env''. repeat split; assumption.
Defined.

Lemma steps_count_episode_length_witness :
  aligned (_dataset (init Samples.dataset2)) /\
  0 <= _index (init Samples.dataset2)
     < Z.of_nat (len (states (_dataset (init Samples.dataset2)))) /\
  exists env',
    steps (init Samples.dataset2) [tt; tt; tt; tt; tt] = Ok env' /\
    _current_episode_length env' = 5.
Proof.
  assert (Hi : 0 <= _index (init Samples.dataset2)
                  < Z.of_nat (len (states (_dataset (init Samples.dataset2)))))
    by (split; [discriminate | reflexivity]).
  split; [exact dataset2_aligned|]. split; [exact Hi|].
  destruct (steps_count_episode_length [tt; tt; tt; tt; tt]
              (init Samples.dataset2) dataset2_aligned Hi)
    as (env' & Hs & Hlen & _).
  exists env'. split; [exact Hs | exact Hlen].
Defined.

Lemma table36_rectangular : rectangular Samples.table36.
Proof. repeat constructor. Qed.

Lemma load_without_terminal_column_witness :
  rectangular Samples.table36 /\ (ncols Samples.table36 <= 36)%nat /\
  @is_zero Samples.QFloat (@np_sum Samples.QFloat []) = true /\
  load_dataset (Table Samples.table36) = ([Print MsgLoading], Raise IndexError).
Proof.
  split; [exact table36_rectangular|].
  split; [exact (le_n 36)|]. split; [reflexivity|].
  exact (load_without_terminal_column Samples.table36
           table36_rectangular (le_n 36) eq_refl).
Defined.

Lemma table2_rectangular : rectangular Samples.table2.
Proof. repeat constructor. Qed.

Lemma loaded_table_replays_witness :
  rectangular Samples.table2 /\ (37 <= ncols Samples.table2)%nat /\
  (0 < len Samples.table2)%nat /\
  exists ds env',
    outcome (load_dataset (Table Samples.table2)) = Ok ds /\
    steps (init ds) [tt; tt; tt] = Ok env' /\
    _index env' = 1.
Proof.
  split; [exact table2_rectangular|].
  split; [exact (le_n 37)|]. split; [exact (le_S _ _ (le_n 1))|].
  eexists.
  destruct (loaded_table_replays Samples.table2 _ [tt; tt; tt]
              table2_rectangular (le_n 37) (le_S _ _ (le_n 1)) eq_refl)
    as (env' & Hs & Hidx & _).
  exists env'. split; [reflexivity|]. split; [exact Hs | exact Hidx].
Defined.

(* ===================================================================== *)
(** ** Further facts about the training driver                           *)
(* ===================================================================== *)

Section DriverMore.

Variable train : trainer.

(** The loop only prints its three kinds of line and only writes best
    checkpoints. *)
Lemma for_loop_events (l : list Z) (best : pyfloat) (ev : event) :
  In ev (trace (for_loop train l best)) ->
  (exists i a b c, ev = Print (MsgIteration i a b c)) \/
  (exists q, ev = Print (MsgSavedBest q)) \/
  ev = Print MsgEarlyStopping \/
  (exists i, ev = AlgoSave (BestAt i)).
Proof.
  revert best. induction l as [|j l IH]; intros best.
  - intros [].
  - rewrite for_loop_cons.
    destruct (train j) as [m|e] eqn:E.
    + rewrite (iteration_returns train j best m E). cbv zeta.
      assert (Hit : forall t',
        In ev (Print (MsgIteration j (episode_reward_mean m)
                        (dict_get m "episode_len_mean" (Fin 0))
                        (dict_get m "num_env_steps_sampled_lifetime" (Fin 0)))
               :: (if exceeds (episode_reward_mean m) best
                   then [AlgoSave (BestAt j);
                         Print (MsgSavedBest (episode_reward_mean m))]
                   else [])
               ++ (if (20 <? j) && fle (episode_reward_mean m) (Fin 0)
                   then [Print MsgEarlyStopping] else []) ++ t') ->
        In ev t' \/
        (exists i a b c, ev = Print (MsgIteration i a b c)) \/
        (exists q, ev = Print (MsgSavedBest q)) \/
        ev = Print MsgEarlyStopping \/
        (exists i, ev = AlgoSave (BestAt i))).
      { intros t'. cbn [In]. rewrite !in_app_iff.
        intros [H|[H|[H|H]]].
        - right. left. subst ev. eauto.
        - destruct (exceeds (episode_reward_mean m) best); cbn [In] in H.
          + destruct H as [H|[H|[]]]; subst ev; right; eauto 6.
          + contradiction.
        - destruct ((20 <? j) && fle (episode_reward_mean m) (Fin 0));
            cbn [In] in H; [|contradiction].
          destruct H as [H|[]]. subst ev. right. auto.
        - left. exact H. }
      destruct ((20 <? j) && fle (episode_reward_mean m) (Fin 0)) eqn:C;
        unfold trace; cbn [fst]; intros H.
      * destruct (Hit []) as [[]|Hk]; [|exact Hk].
        rewrite app_nil_r. exact H.
      * destruct (Hit (fst (for_loop train l
                  (if exceeds (episode_reward_mean m) best
                   then episode_reward_mean m else best))))
          as [Hk|Hk]; [|exact (IH _ Hk)|exact Hk].
        rewrite app_nil_r in H. exact H.
    + rewrite (iteration_raises train j best e E). intros [].
Qed.

(** The export block only saves the weights and says so. *)
Lemma export_events (x : exporter) (ev : event) :
  In ev (trace (export_model x)) -> ev = TorchSave \/ ev = Print MsgTorchSaved.
Proof.
  unfold export_model, trace.
  destruct (is_algorithm x); [|intros []].
  destruct (get_policy x) as [[|]|e]; cbn; try (intros []).
  destruct (torch_save x) as [[]|e]; cbn; [|intros []].
  intros [H|[H|[]]]; auto.
Qed.

(** An exception of [algo.train()] at a reached iteration ends the loop. *)
Lemma loop_raises (k : nat) (e : exn) :
  (k < 100)%nat -> reaches train k -> train (Z.of_nat k) = Raise e ->
  outcome (training_loop train) = Raise e.
Proof.
  intros Hk [best Hreach] He. unfold training_loop.
  replace 100%nat with (k + S (99 - k))%nat by lia.
  rewrite range_split, for_loop_app.
  destruct (for_loop train (range k) NegInf) as [t1 r1].
  unfold outcome in Hreach. cbn [snd] in Hreach. subst r1.
  rewrite for_loop_cons, (iteration_raises train _ best e He). reflexivity.
Qed.

(** The early-stopping line is printed exactly when the loop breaks. *)
Lemma for_loop_stop_message (l : list Z) (best : pyfloat) :
  In (Print MsgEarlyStopping) (trace (for_loop train l best)) <->
  exists best' i, outcome (for_loop train l best) = Ok (best', BrokeAt i).
Proof.
  revert best. induction l as [|j l IH]; intros best.
  - cbn. split; [intros [] | intros (b & i & H); discriminate].
  - rewrite for_loop_cons.
    destruct (train j) as [m|e] eqn:E.
    + rewrite (iteration_returns train j best m E). cbv zeta.
      destruct ((20 <? j) && fle (episode_reward_mean m) (Fin 0)) eqn:C.
      * unfold trace, outcome. cbn [fst snd]. split.
        -- intros _. eexists. eexists. reflexivity.
        -- intros _. right. apply in_or_app. right. left. reflexivity.
      * unfold trace, outcome in IH |- *. cbn [fst snd].
        rewrite <- IH. rewrite app_nil_r.
        rewrite <- app_comm_cons. cbn [In]. rewrite in_app_iff. split.
        -- intros [H|[H|H]]; [discriminate H| |exact H].
           destruct (exceeds (episode_reward_mean m) best); cbn [In] in H;
             [|contradiction].
           destruct H as [H|[H|[]]]; discriminate H.
        -- intros H. right. right. exact H.
    + rewrite (iteration_raises train j best e E).
      unfold trace, outcome. cbn [fst snd].
      split; [intros [] | intros (b & i & H); discriminate].
Qed.

(** While no iteration meets the early-stopping test and every call of
    [algo.train()] returns, the loop runs through its whole list. *)
Lemma for_loop_exhausts (l : list Z) (best : pyfloat) :
  (forall i, In i l ->
     exists m, train i = Ok m /\
               (20 < i -> fgt (episode_reward_mean m) (Fin 0) = true)) ->
  exists best', outcome (for_loop train l best) = Ok (best', Exhausted).
Proof.
  revert best. induction l as [|j l IH]; intros best Hall.
  - eexists. reflexivity.
  - destruct (Hall j (or_introl eq_refl)) as (m & Hm & Hpos).
    rewrite for_loop_cons, (iteration_returns train j best m Hm). cbv zeta.
    assert (C : (20 <? j) && fle (episode_reward_mean m) (Fin 0) = false).
    { apply andb_false_iff. destruct (Z.ltb_spec 20 j) as [H|H]; [|now left].
      right. apply fgt_not_fle. exact (Hpos H). }
    rewrite C. unfold outcome at 1. cbn [snd].
    apply IH. intros i Hi. apply Hall. right. exact Hi.
Qed.

End DriverMore.

Section DriverExtras.

Variable train : trainer.

(** X8. An exception of [algo.train()] other than [KeyboardInterrupt],
    raised at a reached iteration, is not handled: the [finally] block
    still writes the final checkpoint and prints its closing line (the
    export not failing beyond an [Exception]), the interrupt notice is
    not printed, and the script ends with that exception. *)
Theorem train_exception_propagates (k : nat) (e : exn) (x : exporter) :
  (k < 100)%nat -> reaches train k -> train (Z.of_nat k) = Raise e ->
  is_KeyboardInterrupt e = false ->
  (forall e', outcome (export_model x) = Raise e' -> is_Exception e' = true) ->
  outcome (main train x) = Raise e /\
  In (AlgoSave Final) (trace (main train x)) /\
  In (Print MsgCompleted) (trace (main train x)) /\
  ~ In (Print MsgInterrupted) (trace (main train x)).
Proof.
  intros Hk Hreach He Hki Hexp.
  pose proof (loop_raises train k e Hk Hreach He) as Hloop.
  split; [|split; [|split]].
  - rewrite main_outcome, Hloop.
    destruct (outcome (export_model x)) as [u|e'] eqn:E;
      [|rewrite (Hexp e' eq_refl)]; destruct e; try reflexivity;
      discriminate.
  - apply main_saves. left. reflexivity.
  - rewrite main_trace, !in_app_iff. do 5 right.
    destruct (outcome (export_model x)) as [u|e'] eqn:E.
    + left. reflexivity.
    + rewrite (Hexp e' eq_refl). right. left. reflexivity.
  - rewrite main_trace, Hloop, !in_app_iff. cbn [In].
    intros [H|[H|[H|[H|[H|H]]]]].
    + destruct H as [H|[H|[H|[]]]]; discriminate.
    + apply for_loop_events in H.
      destruct H as [(i & a & b & c & H)|[(q & H)|[H|(i & H)]]];
        discriminate.
    + destruct e; [discriminate Hki | destruct H | destruct H].
    + destruct H as [H|[H|[]]]; discriminate.
    + apply export_events in H. destruct H; discriminate.
    + destruct (outcome (export_model x)) as [u|e'];
        [|destruct (is_Exception e')]; cbn [In] in H;
        intuition discriminate.
Qed.

(** X9. [except Exception] does not catch a [KeyboardInterrupt] or
    [SystemExit] raised inside the export: the final checkpoint has been
    written, but no export failure is reported, the closing line is not
    printed and the script ends with that exception. *)
Theorem export_interrupt_propagates (x : exporter) (e : exn) :
  outcome (export_model x) = Raise e -> is_Exception e = false ->
  outcome (main train x) = Raise e /\
  In (AlgoSave Final) (trace (main train x)) /\
  ~ In (Print MsgCompleted) (trace (main train x)) /\
  (forall e', ~ In (Print (MsgExportFailed e')) (trace (main train x))).
Proof.
  intros Hx He.
  assert (Hnone : forall ev,
            (forall i a b c, ev <> Print (MsgIteration i a b c)) ->
            (forall q, ev <> Print (MsgSavedBest q)) ->
            ev <> Print MsgEarlyStopping ->
            (forall i, ev <> AlgoSave (BestAt i)) ->
            ev <> Print MsgInitializing -> ev <> AlgoBuild ->
            ev <> MakeDirs -> ev <> Print MsgInterrupted ->
            ev <> AlgoSave Final -> ev <> Print MsgFinalSaved ->
            ev <> TorchSave -> ev <> Print MsgTorchSaved ->
            ~ In ev (trace (main train x))).
  { intros ev N1 N2 N3 N4 N5 N6 N7 N8 N9 N10 N11 N12.
    rewrite main_trace, Hx, He, !in_app_iff. cbn [In].
    intros [H|[H|[H|[H|[H|H]]]]].
    - destruct H as [H|[H|[H|[]]]]; congruence.
    - apply for_loop_events in H.
      destruct H as [(i & a & b & c & H)|[(q & H)|[H|(i & H)]]].
      + exact (N1 _ _ _ _ H).
      + exact (N2 _ H).
      + exact (N3 H).
      + exact (N4 _ H).
    - destruct (outcome (training_loop train)) as [r|[| |c]];
        cbn [In] in H; intuition congruence.
    - destruct H as [H|[H|[]]]; congruence.
    - apply export_events in H. destruct H; congruence.
    - exact H. }
  split; [|split; [|split]].
  - rewrite main_outcome, Hx, He. reflexivity.
  - apply main_saves. left. reflexivity.
  - apply Hnone; intros; discriminate.
  - intros e'. apply Hnone; intros; discriminate.
Qed.

(** X10. The policy weights are saved with [torch.save] exactly when
    [algo] is an [Algorithm], [algo.get_policy()] returns a policy and
    [torch.save] itself returns; in every other case the run has no
    exported weights. *)
Theorem weights_exported_iff (x : exporter) :
  In TorchSave (trace (main train x)) <->
  is_algorithm x = true /\ get_policy x = Ok true /\ torch_save x = Ok tt.
Proof.
  rewrite main_trace, !in_app_iff. cbn [In]. split.
  - intros [H|[H|[H|[H|[H|H]]]]].
    + destruct H as [H|[H|[H|[]]]]; discriminate.
    + apply for_loop_events in H.
      destruct H as [(i & a & b & c & H)|[(q & H)|[H|(i & H)]]];
        discriminate.
    + destruct (outcome (training_loop train)) as [r|[| |c]];
        cbn [In] in H; intuition discriminate.
    + destruct H as [H|[H|[]]]; discriminate.
    + unfold export_model, trace in H.
      destruct (is_algorithm x); [|destruct H].
      destruct (get_policy x) as [[|]|e]; cbn in H; try contradiction.
      destruct (torch_save x) as [[]|e]; cbn in H; [|contradiction].
      repeat split.
    + destruct (outcome (export_model x)) as [u|e];
        [|destruct (is_Exception e)]; cbn [In] in H;
        intuition discriminate.
  - intros (Ha & Hp & Ht). do 4 right. left.
    unfold export_model, trace. rewrite Ha, Hp, Ht. left. reflexivity.
Qed.

(** X11. If every call of [algo.train()] returns and the mean reward is
    positive from iteration 21 on, the loop is never left early: all 100
    iterations are reached, the early-stopping line is not printed, and
    the [for] statement ends by exhaustion. *)
Theorem loop_runs_to_exhaustion :
  (forall i, 0 <= i < 100 ->
     exists m, train i = Ok m /\
               (20 < i -> fgt (episode_reward_mean m) (Fin 0) = true)) ->
  (exists best, outcome (training_loop train) = Ok (best, Exhausted)) /\
  (forall k, (k < 100)%nat -> reaches train k) /\
  ~ In (Print MsgEarlyStopping) (trace (training_loop train)).
Proof.
  intros Hall.
  assert (Hex : forall k best, (k <= 100)%nat ->
            exists best',
              outcome (for_loop train (range k) best) = Ok (best', Exhausted)).
  { intros k best Hk. apply for_loop_exhausts.
    intros i Hi. apply range_before in Hi. apply Hall. lia. }
  destruct (Hex 100%nat NegInf (le_n _)) as [best Hbest].
  split; [exists best; exact Hbest|]. split.
  - intros k Hk. apply Hex. lia.
  - unfold training_loop in *. rewrite for_loop_stop_message.
    intros (b & i & H). rewrite Hbest in H. discriminate.
Qed.

(** X12. At any reached iteration, [best_reward] is the largest mean
    reward kept so far: it is never NaN; no mean observed so far is
    greater than it; and it is either still minus infinity or the mean of
    an earlier iteration [j] that is greater than every mean before [j]
    that is a number (so [j] is the first iteration attaining it). *)
Theorem best_reward_is_running_max (k : nat) (best : pyfloat) :
  outcome (for_loop train (range k) NegInf) = Ok (best, Exhausted) ->
  is_nan best = false /\
  (forall i, (i < k)%nat ->
     fgt (avg_reward_at train (Z.of_nat i)) best = false) /\
  (best = NegInf \/
   exists j, (j < k)%nat /\
     best = avg_reward_at train (Z.of_nat j) /\
     forall i, (i < j)%nat ->
       is_nan (avg_reward_at train (Z.of_nat i)) = true \/
       fgt (avg_reward_at train (Z.of_nat j))
           (avg_reward_at train (Z.of_nat i)) = true).
Proof.
  intros H. exact (proj2 (best_invariant train k best H)).
Qed.

(** A best checkpoint in the trace was written by an iteration that was
    reached, returned, and exceeded the best reward kept until then. *)
Lemma save_implies_ran (n : nat) (z : Z) :
  In (AlgoSave (BestAt z)) (trace (for_loop train (range n) NegInf)) ->
  exists k b m,
    z = Z.of_nat k /\ (k < n)%nat /\
    outcome (for_loop train (range k) NegInf) = Ok (b, Exhausted) /\
    train (Z.of_nat k) = Ok m /\
    exceeds (episode_reward_mean m) b = true.
Proof.
  induction n as [|n IH].
  - intros [].
  - rewrite range_S, for_loop_app.
    assert (IH' : In (AlgoSave (BestAt z))
                    (trace (for_loop train (range n) NegInf)) ->
                  exists k b m,
                    z = Z.of_nat k /\ (k < S n)%nat /\
                    outcome (for_loop train (range k) NegInf)
                      = Ok (b, Exhausted) /\
                    train (Z.of_nat k) = Ok m /\
                    exceeds (episode_reward_mean m) b = true).
    { intros H. destruct (IH H) as (k & b & m & Hz & Hk & Hrest).
      exists k, b, m. split; [exact Hz|]. split; [lia | exact Hrest]. }
    clear IH.
    destruct (for_loop train (range n) NegInf) as [t1 [[b1 [|j]]|e]] eqn:E;
      try exact IH'.
    unfold trace at 1. cbn [fst]. rewrite in_app_iff.
    intros [H|H]; [exact (IH' H)|].
    rewrite for_loop_cons in H.
    pose proof (iteration_save train (Z.of_nat n) z b1) as Hit.
    unfold trace in H, Hit.
    assert (Hin : In (AlgoSave (BestAt z))
                    (fst (iteration train (Z.of_nat n) b1))).
    { destruct (iteration train (Z.of_nat n) b1) as [t [[b' [|]]|e]];
        cbn [fst for_loop ret] in H |- *; try exact H.
      rewrite app_nil_r in H. exact H. }
    apply Hit in Hin. destruct Hin as (-> & m & Hm & Hx).
    exists n, b1, m. split; [reflexivity|]. split; [lia|].
    split; [rewrite E; reflexivity|]. split; assumption.
Qed.

(** X13. Whatever the run, a best checkpoint found in the loop's trace
    for iteration [z] was written by an iteration of the loop whose
    [algo.train()] returned, whose mean reward is above minus infinity
    (so not NaN) and strictly greater than every earlier mean that is a
    number; so the mean rewards of the checkpoints written grow
    strictly. *)
Theorem saved_checkpoint_beats_earlier (z : Z) :
  In (AlgoSave (BestAt z)) (trace (training_loop train)) ->
  0 <= z < 100 /\
  (exists m, train z = Ok m) /\
  fgt (avg_reward_at train z) NegInf = true /\
  (forall j, 0 <= j < z ->
     is_nan (avg_reward_at train j) = true \/
     fgt (avg_reward_at train z) (avg_reward_at train j) = true) /\
  (forall j, 0 <= j < z ->
     In (AlgoSave (BestAt j)) (trace (training_loop train)) ->
     fgt (avg_reward_at train z) (avg_reward_at train j) = true).
Proof.
  intros H. apply (save_implies_ran 100) in H.
  destruct H as (k & b & m & -> & Hk & Hreach & Hm & Hx).
  pose proof (exceeds_best_iff train k b (episode_reward_mean m) Hreach)
    as Hbest.
  rewrite (avg_reward_at_returns train _ m Hm).
  destruct (proj1 Hbest Hx) as [Hinf Hall].
  assert (Hearlier : forall j, 0 <= j < Z.of_nat k ->
            is_nan (avg_reward_at train j) = true \/
            fgt (episode_reward_mean m) (avg_reward_at train j) = true).
  { intros j Hj. replace j with (Z.of_nat (Z.to_nat j)) by lia.
    apply Hall. lia. }
  split; [lia|]. split; [exists m; exact Hm|]. split; [exact Hinf|].
  split; [exact Hearlier|].
  intros j Hj Hsaved. apply (save_implies_ran 100) in Hsaved.
  destruct Hsaved as (k' & b' & m' & -> & _ & _ & Hm' & Hx').
  destruct (Hearlier _ Hj) as [N|X]; [|exact X].
  rewrite (avg_reward_at_returns train _ m' Hm') in N.
  unfold exceeds in Hx'. apply fgt_not_nan in Hx'. destruct Hx'. congruence.
Qed.

(** X14. The script prints its early-stopping line exactly when the loop
    was left by [break]. *)
Theorem early_stopping_line_iff_break (x : exporter) :
  In (Print MsgEarlyStopping) (trace (main train x)) <->
  exists best i, outcome (training_loop train) = Ok (best, BrokeAt i).
Proof.
  unfold training_loop. rewrite <- for_loop_stop_message.
  fold (training_loop train).
  rewrite main_trace, !in_app_iff. cbn [In]. split.
  - intros [H|[H|[H|[H|[H|H]]]]].
    + destruct H as [H|[H|[H|[]]]]; discriminate.
    + exact H.
    + destruct (outcome (training_loop train)) as [r|[| |c]];
        cbn [In] in H; intuition discriminate.
    + destruct H as [H|[H|[]]]; discriminate.
    + apply export_events in H. destruct H; discriminate.
    + destruct (outcome (export_model x)) as [u|e];
        [|destruct (is_Exception e)]; cbn [In] in H;
        intuition discriminate.
  - intros H. right. left. exact H.
Qed.

(** X15. The final checkpoint is written once, after every checkpoint of
    the loop and before the export is attempted: the trace splits around
    it into a part without final checkpoint and without saved weights,
    and a part without any checkpoint. *)
Theorem final_checkpoint_order (x : exporter) :
  exists pre post,
    trace (main train x) = pre ++ AlgoSave Final :: post /\
    ~ In (AlgoSave Final) pre /\
    ~ In TorchSave pre /\
    (forall s, ~ In (AlgoSave s) post).
Proof.
  exists ([Print MsgInitializing; AlgoBuild; MakeDirs]
          ++ trace (training_loop train)
          ++ match outcome (training_loop train) with
             | Raise KeyboardInterrupt => [Print MsgInterrupted]
             | _ => []
             end).
  exists (Print MsgFinalSaved
          :: trace (export_model x)
          ++ match outcome (export_model x) with
             | Ok _ => [Print MsgCompleted]
             | Raise e =>
                 if is_Exception e
                 then [Print (MsgExportFailed e); Print MsgCompleted] else []
             end).
  assert (Hpre : forall ev,
            (forall i a b c, ev <> Print (MsgIteration i a b c)) ->
            (forall q, ev <> Print (MsgSavedBest q)) ->
            ev <> Print MsgEarlyStopping ->
            (forall i, ev <> AlgoSave (BestAt i)) ->
            ev <> Print MsgInitializing -> ev <> AlgoBuild ->
            ev <> MakeDirs -> ev <> Print MsgInterrupted ->
            ~ In ev ([Print MsgInitializing; AlgoBuild; MakeDirs]
                     ++ trace (training_loop train)
                     ++ match outcome (training_loop train) with
                        | Raise KeyboardInterrupt => [Print MsgInterrupted]
                        | _ => []
                        end)).
  { intros ev N1 N2 N3 N4 N5 N6 N7 N8. rewrite !in_app_iff. cbn [In].
    intros [H|[H|H]].
    - destruct H as [H|[H|[H|[]]]]; congruence.
    - apply for_loop_events in H.
      destruct H as [(i & a & b & c & H)|[(q & H)|[H|(i & H)]]].
      + exact (N1 _ _ _ _ H).
      + exact (N2 _ H).
      + exact (N3 H).
      + exact (N4 _ H).
    - destruct (outcome (training_loop train)) as [r|[| |c]];
        cbn [In] in H; intuition congruence. }
  split; [|split; [|split]].
  - rewrite main_trace, <- !app_assoc. reflexivity.
  - apply Hpre; intros; discriminate.
  - apply Hpre; intros; discriminate.
  - intros s [H|H]; [discriminate|].
    apply in_app_or in H. destruct H as [H|H].
    + exact (export_model_saves x s H).
    + destruct (outcome (export_model x)) as [u|e];
        [|destruct (is_Exception e)]; cbn [In] in H;
        intuition discriminate.
Qed.

End DriverExtras.

Lemma train_exception_propagates_witness :
  (2 < 100)%nat /\ reaches Samples.train_crashing 2 /\
  Samples.train_crashing 2 = Raise (Error "RayTaskError") /\
  is_KeyboardInterrupt (Error "RayTaskError") = false /\
  outcome (main Samples.train_crashing Samples.export_working)
    = Raise (Error "RayTaskError") /\
  In (AlgoSave Final)
     (trace (main Samples.train_crashing Samples.export_working)).
Proof.
  assert (Hk : (2 < 100)%nat) by lia.
  assert (Hr : reaches Samples.train_crashing 2) by (eexists; reflexivity).
  assert (Hx : forall e',
            outcome (export_model Samples.export_working) = Raise e' ->
            is_Exception e' = true) by (intros e' H; discriminate H).
  split; [exact Hk|]. split; [exact Hr|]. split; [reflexivity|].
  split; [reflexivity|].
  destruct (train_exception_propagates Samples.train_crashing 2 _
              Samples.export_working Hk Hr eq_refl eq_refl Hx)
    as (Hout & Hsave & _).
  split; [exact Hout | exact Hsave].
Defined.

Lemma export_interrupt_propagates_witness :
  outcome (export_model Samples.export_interrupted) = Raise KeyboardInterrupt /\
  is_Exception KeyboardInterrupt = false /\
  outcome (main Samples.train_positive Samples.export_interrupted)
    = Raise KeyboardInterrupt /\
  ~ In (Print MsgCompleted)
       (trace (main Samples.train_positive Samples.export_interrupted)).
Proof.
  split; [reflexivity|]. split; [reflexivity|].
  destruct (export_interrupt_propagates Samples.train_positive
              Samples.export_interrupted KeyboardInterrupt eq_refl eq_refl)
    as (Hout & _ & Hdone & _).
  split; [exact Hout | exact Hdone].
Defined.

Lemma loop_runs_to_exhaustion_witness :
  (forall i, 0 <= i < 100 ->
     exists m, Samples.train_positive i = Ok m /\
               (20 < i -> fgt (episode_reward_mean m) (Fin 0) = true)) /\
  exists best,
    outcome (training_loop Samples.train_positive) = Ok (best, Exhausted).
Proof.
  assert (H : forall i, 0 <= i < 100 ->
            exists m, Samples.train_positive i = Ok m /\
                      (20 < i -> fgt (episode_reward_mean m) (Fin 0) = true)).
  { intros i _. eexists. split; [reflexivity|]. intros _. reflexivity. }
  split; [exact H|].
  exact (proj1 (loop_runs_to_exhaustion Samples.train_positive H)).
Defined.

Lemma best_reward_is_running_max_witness :
  outcome (for_loop Samples.train_nan_then_5 (range 2) NegInf)
    = Ok (Fin 5, Exhausted) /\
  is_nan (Fin 5) = false /\
  (forall i, (i < 2)%nat ->
     fgt (avg_reward_at Samples.train_nan_then_5 (Z.of_nat i)) (Fin 5)
     = false).
Proof.
  split; [reflexivity|].
  destruct (best_reward_is_running_max Samples.train_nan_then_5 2
              (Fin 5) eq_refl) as (Hn & Hmax & _).
  split; [exact Hn | exact Hmax].
Defined.

Lemma saved_checkpoint_beats_earlier_witness :
  In (AlgoSave (BestAt 1)) (trace (training_loop Samples.train_interrupted)) /\
  forall j, 0 <= j < 1 ->
    is_nan (avg_reward_at Samples.train_interrupted j) = true \/
    fgt (avg_reward_at Samples.train_interrupted 1)
        (avg_reward_at Samples.train_interrupted j) = true.
Proof.
  assert (H : In (AlgoSave (BestAt 1))
                (trace (training_loop Samples.train_interrupted))).
  { vm_compute. do 4 right. left. reflexivity. }
  split; [exact H|].
  destruct (saved_checkpoint_beats_earlier Samples.train_interrupted 1 H)
    as (_ & _ & _ & Hearlier & _).
  exact Hearlier.
Defined.

(* ===================================================================== *)
(** ** Further facts about the fitting block and the font selection      *)
(* ===================================================================== *)

Section FitMore.

Context {lib : FitLib}.

Variables x_data y0_mean y1_mean x_fine : Vec.

(** X16. When both polynomial fits and both evaluations return, nothing
    is printed, [UnivariateSpline] is not consulted, and [fit_results]
    holds the two polynomial curves, the method "4th Order Polynomial"
    and the success flag [True]. *)
Theorem fit_polynomial_path (p0 p1 y0_fit y1_fit : Vec) :
  polyfit x_data y0_mean 4 = Ok p0 ->
  polyval p0 x_fine = Ok y0_fit ->
  polyfit x_data y1_mean 4 = Ok p1 ->
  polyval p1 x_fine = Ok y1_fit ->
  fit x_data y0_mean y1_mean x_fine =
  ([], Ok [("method"%string, VStr "4th Order Polynomial");
           ("y0_fit"%string, VArr y0_fit);
           ("y1_fit"%string, VArr y1_fit);
           ("success"%string, VBool true)]).
Proof.
  intros H0 Hv0 H1 Hv1. unfold fit.
  rewrite H0. cbn [lift bind]. rewrite Hv0. cbn [lift bind].
  rewrite H1. cbn [lift bind]. rewrite Hv1. reflexivity.
Qed.

(** X17. A [KeyboardInterrupt] or [SystemExit] raised inside a
    polynomial fit is not turned into a fallback: nothing is printed, no
    spline is built, and the script ends with that exception. *)
Theorem fit_interrupt_propagates (e : exn) :
  polyfit x_data y0_mean 4 = Raise e \/
  (exists p0 v0, polyfit x_data y0_mean 4 = Ok p0 /\
                 polyval p0 x_fine = Ok v0 /\
                 polyfit x_data y1_mean 4 = Raise e) ->
  is_Exception e = false ->
  fit x_data y0_mean y1_mean x_fine = ([], Raise e).
Proof.
  intros [H0 | (p0 & v0 & H0 & Hv & H1)] He; unfold fit.
  - rewrite H0. cbn [lift bind try_except]. rewrite He. reflexivity.
  - rewrite H0. cbn [lift bind]. rewrite Hv. cbn [lift bind].
    rewrite H1. cbn [lift bind try_except app]. rewrite He. reflexivity.
Qed.

(** The fitting block is the [try] body guarded by the [except]
    handler. *)
Lemma fit_try_except :
  fit x_data y0_mean y1_mean x_fine =
  try_except (polynomial_fit x_data y0_mean y1_mean x_fine) is_Exception
    (spline_fallback x_data y0_mean y1_mean x_fine).
Proof. reflexivity. Qed.

Lemma polynomial_fit_shape :
  exists r,
    polynomial_fit x_data y0_mean y1_mean x_fine = ([], r) /\
    forall d, r = Ok d ->
      exists y0_fit y1_fit,
        d = [("method"%string, VStr "4th Order Polynomial");
             ("y0_fit"%string, VArr y0_fit);
             ("y1_fit"%string, VArr y1_fit);
             ("success"%string, VBool true)].
Proof.
  unfold polynomial_fit.
  destruct (polyfit x_data y0_mean 4) as [p0|e0]; cbn [lift bind];
    [|eexists; split; [reflexivity | discriminate]].
  destruct (polyval p0 x_fine) as [v0|e0]; cbn [lift bind];
    [|eexists; split; [reflexivity | discriminate]].
  destruct (polyfit x_data y1_mean 4) as [p1|e1]; cbn [lift bind];
    [|eexists; split; [reflexivity | discriminate]].
  destruct (polyval p1 x_fine) as [v1|e1]; cbn [lift bind];
    [|eexists; split; [reflexivity | discriminate]].
  eexists. split; [reflexivity|].
  intros d Hd. apply Ok_inj in Hd. subst d. exists v0, v1. reflexivity.
Qed.

Lemma spline_fallback_shape (e : exn) :
  exists r,
    spline_fallback x_data y0_mean y1_mean x_fine e
      = ([Print (MsgPolyFailed e)], r) /\
    forall d, r = Ok d ->
      exists y0_fit y1_fit,
        d = [("method"%string, VStr "Spline Interpolation");
             ("y0_fit"%string, VArr y0_fit);
             ("y1_fit"%string, VArr y1_fit);
             ("success"%string, VBool false)].
Proof.
  unfold spline_fallback. cbn [print tell bind app].
  destruct (UnivariateSpline x_data y0_mean 100) as [s0|e0]; cbn [lift bind];
    [|eexists; split; [reflexivity | discriminate]].
  destruct (UnivariateSpline x_data y1_mean 100) as [s1|e1]; cbn [lift bind];
    [|eexists; split; [reflexivity | discriminate]].
  destruct (spline_call s0 x_fine) as [w0|e0]; cbn [lift bind];
    [|eexists; split; [reflexivity | discriminate]].
  destruct (spline_call s1 x_fine) as [w1|e1]; cbn [lift bind];
    [|eexists; split; [reflexivity | discriminate]].
  eexists. split; [reflexivity|].
  intros d Hd. apply Ok_inj in Hd. subst d. exists w0, w1. reflexivity.
Qed.

(** X18. Whenever the fitting block completes, [fit_results] has the four
    keys [method], [y0_fit], [y1_fit], [success] in one of two shapes:
    polynomial curves with [success = True] and nothing printed, or
    spline curves with [success = False] after the failure line for an
    [Exception] was printed; the flag tells the method. *)
Theorem fit_result_shape (d : dict value) :
  outcome (fit x_data y0_mean y1_mean x_fine) = Ok d ->
  (exists y0_fit y1_fit,
     d = [("method"%string, VStr "4th Order Polynomial");
          ("y0_fit"%string, VArr y0_fit);
          ("y1_fit"%string, VArr y1_fit);
          ("success"%string, VBool true)] /\
     trace (fit x_data y0_mean y1_mean x_fine) = []) \/
  (exists e y0_fit y1_fit,
     d = [("method"%string, VStr "Spline Interpolation");
          ("y0_fit"%string, VArr y0_fit);
          ("y1_fit"%string, VArr y1_fit);
          ("success"%string, VBool false)] /\
     trace (fit x_data y0_mean y1_mean x_fine) = [Print (MsgPolyFailed e)] /\
     is_Exception e = true).
Proof.
  rewrite fit_try_except.
  destruct polynomial_fit_shape as (r & -> & Hpoly).
  unfold try_except, outcome, trace.
  destruct r as [d'|e]; cbn [fst snd].
  - intros Hd. left. destruct (Hpoly d' eq_refl) as (v0 & v1 & ->).
    apply Ok_inj in Hd. subst d. exists v0, v1. split; reflexivity.
  - destruct (is_Exception e) eqn:He; [|discriminate].
    destruct (spline_fallback_shape e) as (r & -> & Hspl).
    cbn [fst snd app]. intros Hd. right.
    destruct (Hspl d Hd) as (w0 & w1 & ->).
    exists e, w0, w1. split; [reflexivity|].
    split; [reflexivity | exact He].
Qed.

End FitMore.

Lemma fit_polynomial_path_witness :
  polyfit (FitLib := Samples.lib_poly_works) [1; 2]%Q [5; 6]%Q 4
    = Ok [5; 6]%Q /\
  polyval (FitLib := Samples.lib_poly_works) [5; 6]%Q [1; 2]%Q
    = Ok [5; 6]%Q /\
  polyfit (FitLib := Samples.lib_poly_works) [1; 2]%Q [7; 8]%Q 4
    = Ok [7; 8]%Q /\
  polyval (FitLib := Samples.lib_poly_works) [7; 8]%Q [1; 2]%Q
    = Ok [7; 8]%Q /\
  fit (lib := Samples.lib_poly_works) [1; 2]%Q [5; 6]%Q [7; 8]%Q [1; 2]%Q =
  ([], Ok [("method"%string, VStr "4th Order Polynomial");
           ("y0_fit"%string, VArr (lib := Samples.lib_poly_works) [5; 6]%Q);
           ("y1_fit"%string, VArr (lib := Samples.lib_poly_works) [7; 8]%Q);
           ("success"%string, VBool true)]).
Proof.
  repeat (split; [reflexivity|]).
  exact (fit_polynomial_path (lib := Samples.lib_poly_works)
           [1; 2]%Q [5; 6]%Q [7; 8]%Q [1; 2]%Q
           [5; 6]%Q [7; 8]%Q [5; 6]%Q [7; 8]%Q
           eq_refl eq_refl eq_refl eq_refl).
Defined.

Lemma fit_interrupt_propagates_witness :
  polyfit (FitLib := Samples.lib_interrupted) [1; 2]%Q [5; 6]%Q 4
    = Raise KeyboardInterrupt /\
  is_Exception KeyboardInterrupt = false /\
  fit (lib := Samples.lib_interrupted) [1; 2]%Q [5; 6]%Q [7; 8]%Q [1; 2]%Q
    = ([], Raise KeyboardInterrupt).
Proof.
  split; [reflexivity|]. split; [reflexivity|].
  exact (fit_interrupt_propagates (lib := Samples.lib_interrupted)
           [1; 2]%Q [5; 6]%Q [7; 8]%Q [1; 2]%Q
           KeyboardInterrupt (or_introl eq_refl) eq_refl).
Defined.

Lemma fit_result_shape_witness :
  outcome (fit (lib := Samples.lib_poly_fails)
             [1; 2]%Q [5; 6]%Q [7; 8]%Q [1; 2]%Q) =
  Ok [("method"%string, VStr "Spline Interpolation");
      ("y0_fit"%string, VArr (lib := Samples.lib_poly_fails) [5; 5]%Q);
      ("y1_fit"%string, VArr (lib := Samples.lib_poly_fails) [7; 7]%Q);
      ("success"%string, VBool false)] /\
  ((exists y0_fit y1_fit,
      [("method"%string, VStr "Spline Interpolation");
       ("y0_fit"%string, VArr (lib := Samples.lib_poly_fails) [5; 5]%Q);
       ("y1_fit"%string, VArr (lib := Samples.lib_poly_fails) [7; 7]%Q);
       ("success"%string, VBool false)] =
      [("method"%string, VStr "4th Order Polynomial");
       ("y0_fit"%string, VArr y0_fit);
       ("y1_fit"%string, VArr y1_fit);
       ("success"%string, VBool true)] /\
      trace (fit (lib := Samples.lib_poly_fails)
               [1; 2]%Q [5; 6]%Q [7; 8]%Q [1; 2]%Q) = []) \/
   (exists e y0_fit y1_fit,
      [("method"%string, VStr "Spline Interpolation");
       ("y0_fit"%string, VArr (lib := Samples.lib_poly_fails) [5; 5]%Q);
       ("y1_fit"%string, VArr (lib := Samples.lib_poly_fails) [7; 7]%Q);
       ("success"%string, VBool false)] =
      [("method"%string, VStr "Spline Interpolation");
       ("y0_fit"%string, VArr y0_fit);
       ("y1_fit"%string, VArr y1_fit);
       ("success"%string, VBool false)] /\
      trace (fit (lib := Samples.lib_poly_fails)
               [1; 2]%Q [5; 6]%Q [7; 8]%Q [1; 2]%Q)
        = [Print (MsgPolyFailed e)] /\
      is_Exception e = true)).
Proof.
  split; [reflexivity|].
  exact (fit_result_shape (lib := Samples.lib_poly_fails)
           [1; 2]%Q [5; 6]%Q [7; 8]%Q [1; 2]%Q _ eq_refl).
Defined.

Import Visualization.

Lemma contains_In (l : list string) (f : string) :
  contains l f = true <-> In f l.
Proof.
  unfold contains. rewrite existsb_exists. split.
  - intros (g & Hg & He). apply String.eqb_eq in He. now subst g.
  - intros H. exists f. split; [exact H | apply String.eqb_refl].
Qed.

(** [next] over the filtered options: the first option that is
    available, found after only unavailable ones, or the default when no
    option is available. *)
Lemma next_available_first (options available : list string)
    (default : string) :
  (exists pre post,
     options = pre ++ next_available options available default :: post /\
     In (next_available options available default) available /\
     forall g, In g pre -> ~ In g available) \/
  (next_available options available default = default /\
   forall g, In g options -> ~ In g available).
Proof.
  induction options as [|f rest IH].
  - right. split; [reflexivity | intros g []].
  - cbn [next_available]. destruct (contains available f) eqn:C.
    + left. exists [], rest. split; [reflexivity|].
      split; [now apply contains_In | intros g []].
    + assert (Hf : ~ In f available).
      { intros H. apply contains_In in H. congruence. }
      destruct IH as [(pre & post & Heq & Hin & Hpre) | (Hdef & Hnone)].
      * left. exists (f :: pre), post. split; [cbn; now rewrite <- Heq|].
        split; [exact Hin|].
        intros g [<-|Hg]; [exact Hf | exact (Hpre g Hg)].
      * right. split; [exact Hdef|].
        intros g [<-|Hg]; [exact Hf | exact (Hnone g Hg)].
Qed.

(** X19. The font the plotting script selects is the most preferred
    available one: either it is one of the seven preferred fonts, it is
    installed, and every font listed before it is not installed; or none
    of the preferred fonts is installed and the selection is the generic
    family "sans-serif". *)
Theorem selected_font_first_available (available_fonts : list string) :
  (exists pre post,
     font_options = pre ++ selected_font available_fonts :: post /\
     In (selected_font available_fonts) available_fonts /\
     forall g, In g pre -> ~ In g available_fonts) \/
  (selected_font available_fonts = "sans-serif"%string /\
   forall g, In g font_options -> ~ In g available_fonts).
Proof.
  exact (next_available_first font_options available_fonts "sans-serif").
Qed.

(** Two of the preferred fonts installed: the earlier one in the
    preference order is taken, wherever it stands among the installed. *)
Example selected_font_prefers_earlier :
  selected_font ["DejaVu Sans"; "Courier"; "Helvetica"]%string
    = "Helvetica"%string /\
  selected_font ["Courier"; "Times"]%string = "sans-serif"%string /\
  selected_font [] = "sans-serif"%string.
Proof. repeat split. Qed.
